(** * CapsuleObstacle: capsule geometry and fixture synchronisation

    A shallow embedding of [cugl/lib/physics2/CUCapsuleObstacle.cpp]: the
    geometry resolver [resize], the fixture synchroniser [createFixtures] /
    [releaseFixtures], and the mutation hooks [init], [setShape],
    [setDensity] and [setSeamOffset]; and, at the end of the definitions, of
    the frame synchronisation of [source/GLInputController.cpp]: [update]
    and the callbacks of the mouse and of the touch screen.

    Conventions.
    - A C++ [float] is read as an exact rational ([Qc], canonical fractions,
      so that equal numbers are equal terms).  Rounding, infinities and NaN
      are outside the model; every statement below is about the arithmetic
      the source writes down, evaluated exactly.
    - The object is a record with one field per data member the file touches;
      a method is a function from the object to the object (plus a result
      where the method has one).
    - A pointer to a fixture is a handle ([nat]) into the fixture list of the
      body that owns it; a null pointer is [None]. *)

From Stdlib Require Import QArith Qcanon List Bool Arith Lia Lqa.
Import ListNotations.

Open Scope Qc_scope.

Set Primitive Projections.

(** ** Numbers *)

Definition float : Type := Qc.

(** A literal, as in [2.0f] or [(float)0.01]. *)
Definition flt (q : Q) : float := Q2Qc q.

(** [a > b] and [a == b] on floats. *)
Definition fgt (a b : float) : bool :=
  match a ?= b with Gt => true | _ => false end.

Definition feq (a b : float) : bool := Qc_eq_bool a b.

Arguments Qcplus : simpl never.
Arguments Qcminus : simpl never.
Arguments Qcmult : simpl never.
Arguments Qcdiv : simpl never.
Arguments Qcopp : simpl never.
Arguments Qcinv : simpl never.
Arguments Q2Qc : simpl never.
Arguments flt : simpl never.
Arguments fgt : simpl never.
Arguments feq : simpl never.

(** [#define DEFAULT_EPSILON 0.01] *)
Definition DEFAULT_EPSILON : float := flt 0.01.

(** ** Geometry types *)

Record Vec2 : Type := { vx : float; vy : float }.
Record Size : Type := { width : float; height : float }.

(** [poly2::Capsule] *)
Inductive Capsule : Type := DEGENERATE | HALF | HALF_REVERSE | FULL.

Definition Capsule_eqb (a b : Capsule) : bool :=
  match a, b with
  | DEGENERATE, DEGENERATE | HALF, HALF
  | HALF_REVERSE, HALF_REVERSE | FULL, FULL => true
  | _, _ => false
  end.

Record b2Vec2 : Type := { x : float; y : float }.
Record b2AABB : Type := { lowerBound : b2Vec2; upperBound : b2Vec2 }.

(** [_shape.Set(corners, 4)] keeps the four corners it is given. *)
Record b2PolygonShape : Type := { m_vertices : list b2Vec2 }.
Record b2CircleShape : Type := { m_p : b2Vec2; m_radius : float }.

(** What a fixture holds: its own copy of the shape it was created from. *)
Inductive b2Shape : Type :=
| e_polygon (p : b2PolygonShape)
| e_circle (c : b2CircleShape).

(** [b2FixtureDef::shape] points at one of the two shape members of the
    obstacle, or nowhere. *)
Inductive ShapePtr : Type := null_shape | addr_shape | addr_ends.

Record b2FixtureDef : Type := { shape : ShapePtr; density : float }.

(** Updates of the bounds of a box, one coordinate at a time. *)
Definition on_lower_x (f : float -> float) (c : b2AABB) : b2AABB :=
  {| lowerBound := {| x := f (x (lowerBound c)); y := y (lowerBound c) |};
     upperBound := upperBound c |}.
Definition on_lower_y (f : float -> float) (c : b2AABB) : b2AABB :=
  {| lowerBound := {| x := x (lowerBound c); y := f (y (lowerBound c)) |};
     upperBound := upperBound c |}.
Definition on_upper_x (f : float -> float) (c : b2AABB) : b2AABB :=
  {| lowerBound := lowerBound c;
     upperBound := {| x := f (x (upperBound c)); y := y (upperBound c) |} |}.
Definition on_upper_y (f : float -> float) (c : b2AABB) : b2AABB :=
  {| lowerBound := lowerBound c;
     upperBound := {| x := x (upperBound c); y := f (y (upperBound c)) |} |}.

(** ** The physics engine, as far as the obstacle talks to it *)

Abbreviation handle := nat (only parsing).

Record b2Fixture : Type := { m_shape : option b2Shape; m_density : float }.

(** A body: its fixtures, newest first, each under the handle the engine
    returned for it; the next handle it will hand out; and how often its mass
    data was recomputed. *)
Record b2Body : Type := {
  m_fixtureList : list (handle * b2Fixture);
  m_fresh : handle;
  m_massResets : nat
}.

(** Modelled from the spec: the engine operation
    [createFixture(shapeDescriptor) -> fixtureHandle] (Box2D's
    [b2Body::CreateFixture]), which is not part of the sources.  The new
    fixture is put in front of the body's list under a handle not used before. *)
Definition CreateFixture (f : b2Fixture) (b : b2Body) : handle * b2Body :=
  (m_fresh b,
   {| m_fixtureList := (m_fresh b, f) :: m_fixtureList b;
      m_fresh := S (m_fresh b);
      m_massResets := m_massResets b |}).

(** Modelled from the spec: the engine operation
    [destroyFixture(fixtureHandle)] ([b2Body::DestroyFixture]). *)
Definition DestroyFixture (h : handle) (b : b2Body) : b2Body :=
  {| m_fixtureList :=
       filter (fun e => negb (Nat.eqb (fst e) h)) (m_fixtureList b);
     m_fresh := m_fresh b;
     m_massResets := m_massResets b |}.

(** Modelled from the spec: the engine operation
    [setDensity(fixtureHandle, value)] ([b2Fixture::SetDensity]). *)
Definition SetDensity (h : handle) (v : float) (b : b2Body) : b2Body :=
  {| m_fixtureList :=
       map (fun e => if Nat.eqb (fst e) h
                     then (fst e, {| m_shape := m_shape (snd e); m_density := v |})
                     else e)
           (m_fixtureList b);
     m_fresh := m_fresh b;
     m_massResets := m_massResets b |}.

(** Modelled from the spec: the engine operation [resetMassData()]
    ([b2Body::ResetMassData]).  It reads the fixtures and leaves them alone. *)
Definition ResetMassData (b : b2Body) : b2Body :=
  {| m_fixtureList := m_fixtureList b;
     m_fresh := m_fresh b;
     m_massResets := S (m_massResets b) |}.

Definition lookup (h : handle) (b : b2Body) : option b2Fixture :=
  match find (fun e => Nat.eqb (fst e) h) (m_fixtureList b) with
  | Some e => Some (snd e)
  | None => None
  end.

(** The debug wire frame: the arguments [makeCapsule] was last called with,
    and where the node sits. *)
Record WireNode : Type := {
  wire_orient : Capsule;
  wire_size : Size;
  wire_position : Vec2
}.

(** ** The obstacle

    The data members of [CapsuleObstacle], and those of its base class
    [Obstacle] that this file reads or writes. *)

Record CapsuleObstacle : Type := {
  _position : Vec2;  (* [_bodyinfo.position], set by [Obstacle::init] *)
  _fixture : b2FixtureDef;  (* the fixture definition shared by all fixtures *)
  _realbody : option b2Body;  (* the authoritative body *)
  _drawbody : option b2Body;  (* the reference body *)
  _masseffect : bool;  (* mass set by hand, not from the fixtures *)
  _dirty : bool;  (* the fixtures are out of date *)
  _debug : option WireNode;  (* the debug wire frame *)
  _dimension : Size;
  _orient : Capsule;
  _seamEpsilon : float;
  _center : b2AABB;  (* the core rectangle *)
  _shape : b2PolygonShape;  (* the core rectangle as a polygon *)
  _ends : b2CircleShape;  (* the cap *)
  _realcore : option handle;
  _drawcore : option handle;
  _realcap1 : option handle;
  _drawcap1 : option handle;
  _realcap2 : option handle;
  _drawcap2 : option handle
}.

(** Assignment to one member: every other member keeps its value. *)

Definition set_position (v : Vec2) (s : CapsuleObstacle) : CapsuleObstacle :=
  {| _position := v; _fixture := _fixture s; _realbody := _realbody s;
     _drawbody := _drawbody s; _masseffect := _masseffect s; _dirty := _dirty s;
     _debug := _debug s; _dimension := _dimension s; _orient := _orient s;
     _seamEpsilon := _seamEpsilon s; _center := _center s; _shape := _shape s;
     _ends := _ends s; _realcore := _realcore s; _drawcore := _drawcore s;
     _realcap1 := _realcap1 s; _drawcap1 := _drawcap1 s; _realcap2 := _realcap2 s;
     _drawcap2 := _drawcap2 s |}.

Definition set_fixture (v : b2FixtureDef) (s : CapsuleObstacle) : CapsuleObstacle :=
  {| _position := _position s; _fixture := v; _realbody := _realbody s;
     _drawbody := _drawbody s; _masseffect := _masseffect s; _dirty := _dirty s;
     _debug := _debug s; _dimension := _dimension s; _orient := _orient s;
     _seamEpsilon := _seamEpsilon s; _center := _center s; _shape := _shape s;
     _ends := _ends s; _realcore := _realcore s; _drawcore := _drawcore s;
     _realcap1 := _realcap1 s; _drawcap1 := _drawcap1 s; _realcap2 := _realcap2 s;
     _drawcap2 := _drawcap2 s |}.

Definition set_realbody (v : option b2Body) (s : CapsuleObstacle) : CapsuleObstacle :=
  {| _position := _position s; _fixture := _fixture s; _realbody := v;
     _drawbody := _drawbody s; _masseffect := _masseffect s; _dirty := _dirty s;
     _debug := _debug s; _dimension := _dimension s; _orient := _orient s;
     _seamEpsilon := _seamEpsilon s; _center := _center s; _shape := _shape s;
     _ends := _ends s; _realcore := _realcore s; _drawcore := _drawcore s;
     _realcap1 := _realcap1 s; _drawcap1 := _drawcap1 s; _realcap2 := _realcap2 s;
     _drawcap2 := _drawcap2 s |}.

Definition set_drawbody (v : option b2Body) (s : CapsuleObstacle) : CapsuleObstacle :=
  {| _position := _position s; _fixture := _fixture s; _realbody := _realbody s;
     _drawbody := v; _masseffect := _masseffect s; _dirty := _dirty s;
     _debug := _debug s; _dimension := _dimension s; _orient := _orient s;
     _seamEpsilon := _seamEpsilon s; _center := _center s; _shape := _shape s;
     _ends := _ends s; _realcore := _realcore s; _drawcore := _drawcore s;
     _realcap1 := _realcap1 s; _drawcap1 := _drawcap1 s; _realcap2 := _realcap2 s;
     _drawcap2 := _drawcap2 s |}.

Definition set_masseffect (v : bool) (s : CapsuleObstacle) : CapsuleObstacle :=
  {| _position := _position s; _fixture := _fixture s; _realbody := _realbody s;
     _drawbody := _drawbody s; _masseffect := v; _dirty := _dirty s;
     _debug := _debug s; _dimension := _dimension s; _orient := _orient s;
     _seamEpsilon := _seamEpsilon s; _center := _center s; _shape := _shape s;
     _ends := _ends s; _realcore := _realcore s; _drawcore := _drawcore s;
     _realcap1 := _realcap1 s; _drawcap1 := _drawcap1 s; _realcap2 := _realcap2 s;
     _drawcap2 := _drawcap2 s |}.

Definition set_dirty (v : bool) (s : CapsuleObstacle) : CapsuleObstacle :=
  {| _position := _position s; _fixture := _fixture s; _realbody := _realbody s;
     _drawbody := _drawbody s; _masseffect := _masseffect s; _dirty := v;
     _debug := _debug s; _dimension := _dimension s; _orient := _orient s;
     _seamEpsilon := _seamEpsilon s; _center := _center s; _shape := _shape s;
     _ends := _ends s; _realcore := _realcore s; _drawcore := _drawcore s;
     _realcap1 := _realcap1 s; _drawcap1 := _drawcap1 s; _realcap2 := _realcap2 s;
     _drawcap2 := _drawcap2 s |}.

Definition set_debug (v : option WireNode) (s : CapsuleObstacle) : CapsuleObstacle :=
  {| _position := _position s; _fixture := _fixture s; _realbody := _realbody s;
     _drawbody := _drawbody s; _masseffect := _masseffect s; _dirty := _dirty s;
     _debug := v; _dimension := _dimension s; _orient := _orient s;
     _seamEpsilon := _seamEpsilon s; _center := _center s; _shape := _shape s;
     _ends := _ends s; _realcore := _realcore s; _drawcore := _drawcore s;
     _realcap1 := _realcap1 s; _drawcap1 := _drawcap1 s; _realcap2 := _realcap2 s;
     _drawcap2 := _drawcap2 s |}.

Definition set_dimension (v : Size) (s : CapsuleObstacle) : CapsuleObstacle :=
  {| _position := _position s; _fixture := _fixture s; _realbody := _realbody s;
     _drawbody := _drawbody s; _masseffect := _masseffect s; _dirty := _dirty s;
     _debug := _debug s; _dimension := v; _orient := _orient s;
     _seamEpsilon := _seamEpsilon s; _center := _center s; _shape := _shape s;
     _ends := _ends s; _realcore := _realcore s; _drawcore := _drawcore s;
     _realcap1 := _realcap1 s; _drawcap1 := _drawcap1 s; _realcap2 := _realcap2 s;
     _drawcap2 := _drawcap2 s |}.

Definition set_orient (v : Capsule) (s : CapsuleObstacle) : CapsuleObstacle :=
  {| _position := _position s; _fixture := _fixture s; _realbody := _realbody s;
     _drawbody := _drawbody s; _masseffect := _masseffect s; _dirty := _dirty s;
     _debug := _debug s; _dimension := _dimension s; _orient := v;
     _seamEpsilon := _seamEpsilon s; _center := _center s; _shape := _shape s;
     _ends := _ends s; _realcore := _realcore s; _drawcore := _drawcore s;
     _realcap1 := _realcap1 s; _drawcap1 := _drawcap1 s; _realcap2 := _realcap2 s;
     _drawcap2 := _drawcap2 s |}.

Definition set_seamEpsilon (v : float) (s : CapsuleObstacle) : CapsuleObstacle :=
  {| _position := _position s; _fixture := _fixture s; _realbody := _realbody s;
     _drawbody := _drawbody s; _masseffect := _masseffect s; _dirty := _dirty s;
     _debug := _debug s; _dimension := _dimension s; _orient := _orient s;
     _seamEpsilon := v; _center := _center s; _shape := _shape s; _ends := _ends s;
     _realcore := _realcore s; _drawcore := _drawcore s; _realcap1 := _realcap1 s;
     _drawcap1 := _drawcap1 s; _realcap2 := _realcap2 s; _drawcap2 := _drawcap2 s |}.

Definition set_center (v : b2AABB) (s : CapsuleObstacle) : CapsuleObstacle :=
  {| _position := _position s; _fixture := _fixture s; _realbody := _realbody s;
     _drawbody := _drawbody s; _masseffect := _masseffect s; _dirty := _dirty s;
     _debug := _debug s; _dimension := _dimension s; _orient := _orient s;
     _seamEpsilon := _seamEpsilon s; _center := v; _shape := _shape s;
     _ends := _ends s; _realcore := _realcore s; _drawcore := _drawcore s;
     _realcap1 := _realcap1 s; _drawcap1 := _drawcap1 s; _realcap2 := _realcap2 s;
     _drawcap2 := _drawcap2 s |}.

Definition set_shape (v : b2PolygonShape) (s : CapsuleObstacle) : CapsuleObstacle :=
  {| _position := _position s; _fixture := _fixture s; _realbody := _realbody s;
     _drawbody := _drawbody s; _masseffect := _masseffect s; _dirty := _dirty s;
     _debug := _debug s; _dimension := _dimension s; _orient := _orient s;
     _seamEpsilon := _seamEpsilon s; _center := _center s; _shape := v;
     _ends := _ends s; _realcore := _realcore s; _drawcore := _drawcore s;
     _realcap1 := _realcap1 s; _drawcap1 := _drawcap1 s; _realcap2 := _realcap2 s;
     _drawcap2 := _drawcap2 s |}.

Definition set_ends (v : b2CircleShape) (s : CapsuleObstacle) : CapsuleObstacle :=
  {| _position := _position s; _fixture := _fixture s; _realbody := _realbody s;
     _drawbody := _drawbody s; _masseffect := _masseffect s; _dirty := _dirty s;
     _debug := _debug s; _dimension := _dimension s; _orient := _orient s;
     _seamEpsilon := _seamEpsilon s; _center := _center s; _shape := _shape s;
     _ends := v; _realcore := _realcore s; _drawcore := _drawcore s;
     _realcap1 := _realcap1 s; _drawcap1 := _drawcap1 s; _realcap2 := _realcap2 s;
     _drawcap2 := _drawcap2 s |}.

Definition set_realcore (v : option handle) (s : CapsuleObstacle) : CapsuleObstacle :=
  {| _position := _position s; _fixture := _fixture s; _realbody := _realbody s;
     _drawbody := _drawbody s; _masseffect := _masseffect s; _dirty := _dirty s;
     _debug := _debug s; _dimension := _dimension s; _orient := _orient s;
     _seamEpsilon := _seamEpsilon s; _center := _center s; _shape := _shape s;
     _ends := _ends s; _realcore := v; _drawcore := _drawcore s;
     _realcap1 := _realcap1 s; _drawcap1 := _drawcap1 s; _realcap2 := _realcap2 s;
     _drawcap2 := _drawcap2 s |}.

Definition set_drawcore (v : option handle) (s : CapsuleObstacle) : CapsuleObstacle :=
  {| _position := _position s; _fixture := _fixture s; _realbody := _realbody s;
     _drawbody := _drawbody s; _masseffect := _masseffect s; _dirty := _dirty s;
     _debug := _debug s; _dimension := _dimension s; _orient := _orient s;
     _seamEpsilon := _seamEpsilon s; _center := _center s; _shape := _shape s;
     _ends := _ends s; _realcore := _realcore s; _drawcore := v;
     _realcap1 := _realcap1 s; _drawcap1 := _drawcap1 s; _realcap2 := _realcap2 s;
     _drawcap2 := _drawcap2 s |}.

Definition set_realcap1 (v : option handle) (s : CapsuleObstacle) : CapsuleObstacle :=
  {| _position := _position s; _fixture := _fixture s; _realbody := _realbody s;
     _drawbody := _drawbody s; _masseffect := _masseffect s; _dirty := _dirty s;
     _debug := _debug s; _dimension := _dimension s; _orient := _orient s;
     _seamEpsilon := _seamEpsilon s; _center := _center s; _shape := _shape s;
     _ends := _ends s; _realcore := _realcore s; _drawcore := _drawcore s;
     _realcap1 := v; _drawcap1 := _drawcap1 s; _realcap2 := _realcap2 s;
     _drawcap2 := _drawcap2 s |}.

Definition set_drawcap1 (v : option handle) (s : CapsuleObstacle) : CapsuleObstacle :=
  {| _position := _position s; _fixture := _fixture s; _realbody := _realbody s;
     _drawbody := _drawbody s; _masseffect := _masseffect s; _dirty := _dirty s;
     _debug := _debug s; _dimension := _dimension s; _orient := _orient s;
     _seamEpsilon := _seamEpsilon s; _center := _center s; _shape := _shape s;
     _ends := _ends s; _realcore := _realcore s; _drawcore := _drawcore s;
     _realcap1 := _realcap1 s; _drawcap1 := v; _realcap2 := _realcap2 s;
     _drawcap2 := _drawcap2 s |}.

Definition set_realcap2 (v : option handle) (s : CapsuleObstacle) : CapsuleObstacle :=
  {| _position := _position s; _fixture := _fixture s; _realbody := _realbody s;
     _drawbody := _drawbody s; _masseffect := _masseffect s; _dirty := _dirty s;
     _debug := _debug s; _dimension := _dimension s; _orient := _orient s;
     _seamEpsilon := _seamEpsilon s; _center := _center s; _shape := _shape s;
     _ends := _ends s; _realcore := _realcore s; _drawcore := _drawcore s;
     _realcap1 := _realcap1 s; _drawcap1 := _drawcap1 s; _realcap2 := v;
     _drawcap2 := _drawcap2 s |}.

Definition set_drawcap2 (v : option handle) (s : CapsuleObstacle) : CapsuleObstacle :=
  {| _position := _position s; _fixture := _fixture s; _realbody := _realbody s;
     _drawbody := _drawbody s; _masseffect := _masseffect s; _dirty := _dirty s;
     _debug := _debug s; _dimension := _dimension s; _orient := _orient s;
     _seamEpsilon := _seamEpsilon s; _center := _center s; _shape := _shape s;
     _ends := _ends s; _realcore := _realcore s; _drawcore := _drawcore s;
     _realcap1 := _realcap1 s; _drawcap1 := _drawcap1 s; _realcap2 := _realcap2 s;
     _drawcap2 := v |}.

(** [_center.<bound>.<coord> op= ...] *)
Definition upd_center (f : b2AABB -> b2AABB) (s : CapsuleObstacle) : CapsuleObstacle :=
  set_center (f (_center s)) s.

(** [_fixture.shape = ...] and [_fixture.density = ...] *)
Definition set_fixture_shape (p : ShapePtr) (s : CapsuleObstacle) : CapsuleObstacle :=
  set_fixture {| shape := p; density := density (_fixture s) |} s.
Definition set_fixture_density (v : float) (s : CapsuleObstacle) : CapsuleObstacle :=
  set_fixture {| shape := shape (_fixture s); density := v |} s.

(** [_ends.m_p.Set(a, b)], [_ends.m_p.x = a], [_ends.m_p.y = b] and
    [_ends.m_radius = r] *)
Definition set_ends_p (a b : float) (s : CapsuleObstacle) : CapsuleObstacle :=
  set_ends {| m_p := {| x := a; y := b |}; m_radius := m_radius (_ends s) |} s.
Definition set_ends_p_x (a : float) (s : CapsuleObstacle) : CapsuleObstacle :=
  set_ends_p a (y (m_p (_ends s))) s.
Definition set_ends_p_y (b : float) (s : CapsuleObstacle) : CapsuleObstacle :=
  set_ends_p (x (m_p (_ends s))) b s.
Definition set_ends_radius (r : float) (s : CapsuleObstacle) : CapsuleObstacle :=
  set_ends {| m_p := m_p (_ends s); m_radius := r |} s.

(** Modelled from the spec: the constructor, declared in the header, which is
    not part of the sources.  It leaves the obstacle in the state [UNATTACHED],
    with no body, no fixture and every attribute at its default. *)
Definition CapsuleObstacle_new : CapsuleObstacle :=
  {| _position := {| vx := 0; vy := 0 |};
     _fixture := {| shape := null_shape; density := 0 |};
     _realbody := None;
     _drawbody := None;
     _masseffect := false;
     _dirty := false;
     _debug := None;
     _dimension := {| width := 0; height := 0 |};
     _orient := DEGENERATE;
     _seamEpsilon := 0;
     _center := {| lowerBound := {| x := 0; y := 0 |};
                   upperBound := {| x := 0; y := 0 |} |};
     _shape := {| m_vertices := [] |};
     _ends := {| m_p := {| x := 0; y := 0 |}; m_radius := 0 |};
     _realcore := None;
     _drawcore := None;
     _realcap1 := None;
     _drawcap1 := None;
     _realcap2 := None;
     _drawcap2 := None |}.

(** Modelled from the spec: [Obstacle::init(pos)] of the base class, which is
    not part of the sources; it records the position.  Its result is not
    looked at by the caller below. *)
Definition Obstacle_init (pos : Vec2) (s : CapsuleObstacle) : bool * CapsuleObstacle :=
  (true, set_position pos s).

(** Modelled from the spec: [Obstacle::markDirty(flag)] of the base class,
    which is not part of the sources; it records whether the fixtures have to
    be made again. *)
Definition markDirty (flag : bool) (s : CapsuleObstacle) : CapsuleObstacle :=
  set_dirty flag s.

(** Modelled from the spec: attaching the obstacle to its two bodies (done by
    the base class, which is not part of the sources); the move from
    [UNATTACHED] to [ATTACHED_NO_FIXTURES].  A new body has no fixture. *)
Definition b2Body_new (first : handle) : b2Body :=
  {| m_fixtureList := []; m_fresh := first; m_massResets := 0 |}.

Definition attach (real draw : handle) (s : CapsuleObstacle) : CapsuleObstacle :=
  set_drawbody (Some (b2Body_new draw)) (set_realbody (Some (b2Body_new real)) s).

(** Calls through [_realbody] and [_drawbody].  Through a null body pointer
    nothing is done (the source never gets there with fixtures at hand). *)
Definition on_realbody (f : b2Body -> b2Body) (s : CapsuleObstacle) : CapsuleObstacle :=
  match _realbody s with
  | Some b => set_realbody (Some (f b)) s
  | None => s
  end.

Definition on_drawbody (f : b2Body -> b2Body) (s : CapsuleObstacle) : CapsuleObstacle :=
  match _drawbody s with
  | Some b => set_drawbody (Some (f b)) s
  | None => s
  end.

(** What [CreateFixture(&_fixture)] reads through the definition at the time
    of the call: the shape member [_fixture.shape] points at, as it is then,
    and the density. *)
Definition deref (s : CapsuleObstacle) : b2Fixture :=
  {| m_shape := match shape (_fixture s) with
                | null_shape => None
                | addr_shape => Some (e_polygon (_shape s))
                | addr_ends => Some (e_circle (_ends s))
                end;
     m_density := density (_fixture s) |}.

(** [_realbody->CreateFixture(&_fixture)] and [_drawbody->CreateFixture(&_fixture)] *)
Definition real_CreateFixture (s : CapsuleObstacle) : option handle * CapsuleObstacle :=
  match _realbody s with
  | Some b => let '(h, b') := CreateFixture (deref s) b in
              (Some h, set_realbody (Some b') s)
  | None => (None, s)
  end.

Definition draw_CreateFixture (s : CapsuleObstacle) : option handle * CapsuleObstacle :=
  match _drawbody s with
  | Some b => let '(h, b') := CreateFixture (deref s) b in
              (Some h, set_drawbody (Some b') s)
  | None => (None, s)
  end.

(** ** Scene graph methods *)

(** [CapsuleObstacle::resetDebug] *)
Definition resetDebug (s : CapsuleObstacle) : CapsuleObstacle :=
  let path := (_orient s, _dimension s) in
  let node :=
    match _debug s with
    | None => {| wire_orient := fst path; wire_size := snd path;
                 wire_position := {| vx := 0; vy := 0 |} |}
    | Some n => {| wire_orient := fst path; wire_size := snd path;
                   wire_position := wire_position n |}
    end in
  set_debug (Some {| wire_orient := wire_orient node; wire_size := wire_size node;
                     wire_position := _position s |}) s.

(** The cases of the [switch (_orient)] of [resize], each on the radius and
    the box as the cases before left them. *)
Definition resize_FULL (size : Size) (eps : float) (rc : float * b2AABB) : float * b2AABB :=
  let c := snd rc in
  if fgt (width size) (height size) then
    let r := height size / flt 2 in
    let c := on_upper_x (fun v => v - r) c in
    let c := on_lower_x (fun v => v + r) c in
    let c := on_lower_y (fun v => v + eps) c in
    let c := on_upper_y (fun v => v - eps) c in
    (r, c)
  else
    let r := width size / flt 2 in
    let c := on_upper_y (fun v => v - r) c in
    let c := on_lower_y (fun v => v + r) c in
    let c := on_lower_x (fun v => v + eps) c in
    let c := on_upper_x (fun v => v - eps) c in
    (r, c).

Definition resize_HALF (size : Size) (eps : float) (rc : float * b2AABB) : float * b2AABB :=
  let c := snd rc in
  if fgt (width size) (height size) then
    let r := height size / flt 2 in
    let c := on_upper_x (fun v => v - r) c in
    let c := on_lower_y (fun v => v + eps) c in
    let c := on_upper_y (fun v => v - eps) c in
    (r, c)
  else
    let r := width size / flt 2 in
    let c := on_lower_y (fun v => v + r) c in
    let c := on_lower_x (fun v => v + eps) c in
    let c := on_upper_x (fun v => v - eps) c in
    (r, c).

Definition resize_HALF_REVERSE (size : Size) (eps : float) (rc : float * b2AABB) : float * b2AABB :=
  let c := snd rc in
  if fgt (width size) (height size) then
    let r := height size / flt 2 in
    let c := on_lower_x (fun v => v + r) c in
    let c := on_lower_y (fun v => v + eps) c in
    let c := on_upper_y (fun v => v - eps) c in
    (r, c)
  else
    let r := width size / flt 2 in
    let c := on_upper_y (fun v => v - r) c in
    let c := on_lower_x (fun v => v + eps) c in
    let c := on_upper_x (fun v => v - eps) c in
    (r, c).

Definition resize_DEGENERATE (size : Size) (rc : float * b2AABB) : float * b2AABB :=
  let c := snd rc in
  let r := width size / flt 2 in
  let c := on_upper_x (fun _ => 0) c in
  let c := on_upper_y (fun _ => 0) c in
  let c := on_lower_x (fun _ => 0) c in
  let c := on_lower_y (fun _ => 0) c in
  (r, c).

(** The [switch]: [FULL] and [HALF] end in [break]; [HALF_REVERSE] does not,
    so control runs on into the statements of [DEGENERATE]. *)
Definition resize_switch (orient : Capsule) (size : Size) (eps : float)
  (rc : float * b2AABB) : float * b2AABB :=
  match orient with
  | FULL => resize_FULL size eps rc
  | HALF => resize_HALF size eps rc
  | HALF_REVERSE => resize_DEGENERATE size (resize_HALF_REVERSE size eps rc)
  | DEGENERATE => resize_DEGENERATE size rc
  end.

(** [// Get an AABB for the core]: the box [resize] starts from. *)
Definition resize_start (size : Size) : b2AABB :=
  let iw := width size in
  let ih := height size in
  let '(iw, ih) := if fgt (width size) (height size)
                   then (iw, ih - iw)
                   else (iw - ih, ih) in
  {| lowerBound := {| x := - iw / flt 2; y := - ih / flt 2 |};
     upperBound := {| x := iw / flt 2; y := ih / flt 2 |} |}.

(** [// Handle degenerate polys]: the two guards against a flat box. *)
Definition widen_x (eps : float) (c : b2AABB) : b2AABB :=
  if feq (x (lowerBound c)) (x (upperBound c))
  then on_upper_x (fun v => v + eps) (on_lower_x (fun v => v - eps) c)
  else c.

Definition widen_y (eps : float) (c : b2AABB) : b2AABB :=
  if feq (y (lowerBound c)) (y (upperBound c))
  then on_upper_y (fun v => v + eps) (on_lower_y (fun v => v - eps) c)
  else c.

(** [// Make the box for the core] *)
Definition corners (c : b2AABB) : list b2Vec2 :=
  [ {| x := x (lowerBound c); y := y (lowerBound c) |};
    {| x := x (lowerBound c); y := y (upperBound c) |};
    {| x := x (upperBound c); y := y (upperBound c) |};
    {| x := x (upperBound c); y := y (lowerBound c) |} ].

(** [CapsuleObstacle::resize] *)
Definition resize (size : Size) (s : CapsuleObstacle) : CapsuleObstacle :=
  let s := set_dimension size s in
  let s := set_center (resize_start size) s in
  (* Now adjust the core *)
  let r := 0 in
  let rc := resize_switch (_orient s) size (_seamEpsilon s) (r, _center s) in
  let r := fst rc in
  let s := set_center (snd rc) s in
  let s := upd_center (widen_x (_seamEpsilon s)) s in
  let s := upd_center (widen_y (_seamEpsilon s)) s in
  let s := set_shape {| m_vertices := corners (_center s) |} s in
  let s := set_ends_radius r s in
  let s := match _debug s with
           | Some _ => resetDebug s
           | None => s
           end in
  markDirty true s.

(** [CapsuleObstacle::init] *)
Definition init (pos : Vec2) (size : Size) (shape : Capsule) (s : CapsuleObstacle)
  : bool * CapsuleObstacle :=
  let s := snd (Obstacle_init pos s) in
  let s := set_realcore None s in
  let s := set_realcap1 None s in
  let s := set_realcap2 None s in
  let s := set_orient shape s in
  let s := set_seamEpsilon DEFAULT_EPSILON s in
  let s := resize size s in
  (true, s).

(** [CapsuleObstacle::setShape] *)
Definition setShape (value : Capsule) (s : CapsuleObstacle) : CapsuleObstacle :=
  if negb (Capsule_eqb value (_orient s)) then
    let s := set_orient value s in
    resize (_dimension s) s
  else s.

(** ** Physics methods *)

(** [CapsuleObstacle::setDensity] *)
Definition setDensity (value : float) (s : CapsuleObstacle) : CapsuleObstacle :=
  let s := set_fixture_density value s in
  let s := match _realcore s, _drawcore s with
           | Some hr, Some hd =>
               let s := on_realbody (SetDensity hr value) s in
               on_drawbody (SetDensity hd value) s
           | _, _ => s
           end in
  let s := match _realcap1 s, _drawcap1 s with
           | Some hr, Some hd =>
               let s := on_realbody (SetDensity hr (value / flt 2)) s in
               on_drawbody (SetDensity hd (value / flt 2)) s
           | _, _ => s
           end in
  let s := match _realcap2 s, _drawcap2 s with
           | Some hr, Some hd =>
               let s := on_realbody (SetDensity hr (value / flt 2)) s in
               on_drawbody (SetDensity hd (value / flt 2)) s
           | _, _ => s
           end in
  match _realbody s, _drawbody s with
  | Some _, Some _ =>
      if negb (_masseffect s) then
        let s := on_realbody ResetMassData s in
        on_drawbody ResetMassData s
      else s
  | _, _ => s
  end.

(** [CapsuleObstacle::releaseFixtures] *)
Definition releaseFixtures (s : CapsuleObstacle) : CapsuleObstacle :=
  let s := match _realcore s, _drawcore s with
           | Some hr, Some hd =>
               let s := on_realbody (DestroyFixture hr) s in
               let s := on_drawbody (DestroyFixture hd) s in
               let s := set_realcore None s in
               set_drawcore None s
           | _, _ => s
           end in
  let s := match _realcap1 s, _drawcap1 s with
           | Some hr, Some hd =>
               let s := on_realbody (DestroyFixture hr) s in
               let s := on_drawbody (DestroyFixture hd) s in
               let s := set_realcap1 None s in
               set_drawcap1 None s
           | _, _ => s
           end in
  match _realcap2 s, _drawcap2 s with
  | Some hr, Some hd =>
      let s := on_realbody (DestroyFixture hr) s in
      let s := on_drawbody (DestroyFixture hd) s in
      let s := set_realcap2 None s in
      set_drawcap2 None s
  | _, _ => s
  end.

(** The statement pairs of [createFixtures] that make one fixture on each
    body from the definition as it stands:
    [_realX = _realbody->CreateFixture(&_fixture);
     _drawX = _drawbody->CreateFixture(&_fixture);] *)
Definition create_core (s : CapsuleObstacle) : CapsuleObstacle :=
  let '(h, s) := real_CreateFixture s in
  let s := set_realcore h s in
  let '(h, s) := draw_CreateFixture s in
  set_drawcore h s.

Definition create_cap1 (s : CapsuleObstacle) : CapsuleObstacle :=
  let '(h, s) := real_CreateFixture s in
  let s := set_realcap1 h s in
  let '(h, s) := draw_CreateFixture s in
  set_drawcap1 h s.

Definition create_cap2 (s : CapsuleObstacle) : CapsuleObstacle :=
  let '(h, s) := real_CreateFixture s in
  let s := set_realcap2 h s in
  let '(h, s) := draw_CreateFixture s in
  set_drawcap2 h s.

(** [_realcap2 = nullptr; _drawcap2 = nullptr;] *)
Definition no_cap2 (s : CapsuleObstacle) : CapsuleObstacle :=
  set_drawcap2 None (set_realcap2 None s).

(** The orientation the fixtures are made for. *)
Definition trueOrient (s : CapsuleObstacle) : Capsule :=
  if feq (width (_dimension s)) (height (_dimension s)) then DEGENERATE else _orient s.

(** The cases of the [switch (trueOrient)] of [createFixtures]; every one
    ends in [break]. *)
Definition createFixtures_FULL (s : CapsuleObstacle) : CapsuleObstacle :=
  let s := set_fixture_density (density (_fixture s) / flt 2) s in
  let s :=
    if fgt (width (_dimension s)) (height (_dimension s)) then
      let s := set_ends_p_x (x (lowerBound (_center s))) s in
      let s := set_fixture_shape addr_ends s in
      let s := create_cap1 s in
      let s := set_ends_p_x (x (upperBound (_center s))) s in
      let s := set_fixture_shape addr_ends s in
      create_cap2 s
    else
      let s := set_ends_p_y (y (upperBound (_center s))) s in
      let s := set_fixture_shape addr_ends s in
      let s := create_cap1 s in
      let s := set_ends_p_y (y (lowerBound (_center s))) s in
      let s := set_fixture_shape addr_ends s in
      create_cap2 s in
  set_fixture_density (density (_fixture s) * flt 2) s.

Definition createFixtures_HALF (s : CapsuleObstacle) : CapsuleObstacle :=
  let s := set_fixture_density (density (_fixture s) / flt 2) s in
  let s :=
    if fgt (width (_dimension s)) (height (_dimension s)) then
      let s := set_ends_p_x (x (lowerBound (_center s))) s in
      let s := set_fixture_shape addr_ends s in
      let s := create_cap1 s in
      no_cap2 s
    else
      let s := set_ends_p_y (y (lowerBound (_center s))) s in
      let s := set_fixture_shape addr_ends s in
      let s := create_cap1 s in
      no_cap2 s in
  set_fixture_density (density (_fixture s) * flt 2) s.

Definition createFixtures_HALF_REVERSE (s : CapsuleObstacle) : CapsuleObstacle :=
  let s := set_fixture_density (density (_fixture s) / flt 2) s in
  let s :=
    if fgt (width (_dimension s)) (height (_dimension s)) then
      let s := set_ends_p_x (x (upperBound (_center s))) s in
      let s := set_fixture_shape addr_ends s in
      let s := create_cap1 s in
      no_cap2 s
    else
      let s := set_ends_p_y (y (upperBound (_center s))) s in
      let s := set_fixture_shape addr_ends s in
      let s := create_cap1 s in
      no_cap2 s in
  set_fixture_density (density (_fixture s) * flt 2) s.

Definition createFixtures_DEGENERATE (s : CapsuleObstacle) : CapsuleObstacle :=
  let s := set_fixture_shape addr_ends s in
  let s := create_cap1 s in
  no_cap2 s.

(** [CapsuleObstacle::createFixtures] *)
Definition createFixtures (s : CapsuleObstacle) : CapsuleObstacle :=
  match _realbody s, _drawbody s with
  | Some _, Some _ =>
      let s := releaseFixtures s in
      let trueOrient := trueOrient s in
      (* Create the core fixture *)
      let s := if Capsule_eqb trueOrient DEGENERATE then
                 let s := set_realcore None s in
                 set_drawcore None s
               else
                 let s := set_fixture_shape addr_shape s in
                 create_core s in
      let s := set_ends_p 0 0 s in
      let s := match trueOrient with
               | FULL => createFixtures_FULL s
               | HALF => createFixtures_HALF s
               | HALF_REVERSE => createFixtures_HALF_REVERSE s
               | DEGENERATE => createFixtures_DEGENERATE s
               end in
      markDirty false s
  | _, _ => s
  end.

(** What a call that contains an assertion comes to: it returns, or the
    assertion stops it in the state reached so far. *)
Inductive outcome : Type :=
| Returned (s : CapsuleObstacle)
| AssertionFailed (s : CapsuleObstacle).

(** Modelled from the spec: the macro [CUAssertLog(condition, message)], which
    is not part of the sources; a condition that does not hold makes the
    operation fail on the spot. *)
Definition CUAssertLog (condition : bool) (s : CapsuleObstacle)
  (rest : CapsuleObstacle -> outcome) : outcome :=
  if condition then rest s else AssertionFailed s.

(** [CapsuleObstacle::setSeamOffset] *)
Definition setSeamOffset (value : float) (s : CapsuleObstacle) : outcome :=
  CUAssertLog (fgt value 0) s (fun s =>
  let s := set_seamEpsilon value s in
  Returned (markDirty true s)).

(** ** Sequences of calls *)

Inductive call : Type :=
| call_init (pos : Vec2) (size : Size) (shape : Capsule)
| call_attach (real draw : handle)
| call_resize (size : Size)
| call_setShape (value : Capsule)
| call_setDensity (value : float)
| call_setSeamOffset (value : float)
| call_createFixtures
| call_releaseFixtures.

Definition exec (c : call) (s : CapsuleObstacle) : outcome :=
  match c with
  | call_init pos size shape => Returned (snd (init pos size shape s))
  | call_attach real draw => Returned (attach real draw s)
  | call_resize size => Returned (resize size s)
  | call_setShape value => Returned (setShape value s)
  | call_setDensity value => Returned (setDensity value s)
  | call_setSeamOffset value => setSeamOffset value s
  | call_createFixtures => Returned (createFixtures s)
  | call_releaseFixtures => Returned (releaseFixtures s)
  end.

(** The calls are made one after the other; a failed assertion ends the run. *)
Fixpoint run (cs : list call) (s : CapsuleObstacle) : outcome :=
  match cs with
  | [] => Returned s
  | c :: cs' =>
      match exec c s with
      | Returned s' => run cs' s'
      | AssertionFailed s' => AssertionFailed s'
      end
  end.

(** ** Observations on a state *)

(** The fixtures of a body, newest first, without their handles. *)
Definition fixtures (b : option b2Body) : list b2Fixture :=
  match b with
  | Some b => map snd (m_fixtureList b)
  | None => []
  end.

(** The fixture a pointer of the obstacle stands for. *)
Definition fixture_at (b : option b2Body) (h : option handle) : option b2Fixture :=
  match b, h with
  | Some b, Some h => lookup h b
  | _, _ => None
  end.

(** The fixture set of each body: core, first cap, second cap. *)
Definition real_set (s : CapsuleObstacle) : list (option b2Fixture) :=
  [fixture_at (_realbody s) (_realcore s);
   fixture_at (_realbody s) (_realcap1 s);
   fixture_at (_realbody s) (_realcap2 s)].

Definition draw_set (s : CapsuleObstacle) : list (option b2Fixture) :=
  [fixture_at (_drawbody s) (_drawcore s);
   fixture_at (_drawbody s) (_drawcap1 s);
   fixture_at (_drawbody s) (_drawcap2 s)].

(** Both bodies carry the same fixtures, fixture for fixture. *)
Definition mirrored (s : CapsuleObstacle) : Prop :=
  fixtures (_realbody s) = fixtures (_drawbody s).



(** How many caps an orientation attaches. *)
Definition numCapsAttached (o : Capsule) : float :=
  match o with
  | FULL => flt 2
  | HALF | HALF_REVERSE => flt 1
  | DEGENERATE => 0
  end.

(** Equality tests, to compare computed values. *)
Definition b2Vec2_eqb (a b : b2Vec2) : bool := feq (x a) (x b) && feq (y a) (y b).

Fixpoint vertices_eqb (a b : list b2Vec2) : bool :=
  match a, b with
  | [], [] => true
  | v :: a', w :: b' => b2Vec2_eqb v w && vertices_eqb a' b'
  | _, _ => false
  end.

Definition b2Shape_eqb (a b : option b2Shape) : bool :=
  match a, b with
  | None, None => true
  | Some (e_polygon p), Some (e_polygon q) => vertices_eqb (m_vertices p) (m_vertices q)
  | Some (e_circle c), Some (e_circle d) =>
      b2Vec2_eqb (m_p c) (m_p d) && feq (m_radius c) (m_radius d)
  | _, _ => false
  end.

(** A circle, an origin and an extent, written out. *)
Definition circle (cx cy r : Q) : option b2Shape :=
  Some (e_circle {| m_p := {| x := flt cx; y := flt cy |}; m_radius := flt r |}).

Definition pos0 : Vec2 := {| vx := 0; vy := 0 |}.

Definition extent (w h : Q) : Size := {| width := flt w; height := flt h |}.

(** ** Notions used in the statements and in the proofs *)

(** What [resize] computes from the extent, the orientation and the seam
    offset: the radius and the core rectangle. *)
Definition resolve (size : Size) (orient : Capsule) (eps : float) : float * b2AABB :=
  let rc := resize_switch orient size eps (0, resize_start size) in
  (fst rc, widen_y eps (widen_x eps (snd rc))).

(** A new obstacle, initialised at the origin. *)
Definition scenario (w h : Q) (o : Capsule) : CapsuleObstacle :=
  snd (init pos0 (extent w h) o CapsuleObstacle_new).

(** The shape of the fixture behind a pointer. *)
Definition shape_at (b : option b2Body) (h : option handle) : option b2Shape :=
  match fixture_at b h with
  | Some f => m_shape f
  | None => None
  end.

(** What [createFixtures] does once both bodies are known to be there and the
    old fixtures are released. *)
Definition make (s : CapsuleObstacle) : CapsuleObstacle :=
  let trueOrient := trueOrient s in
  let s := if Capsule_eqb trueOrient DEGENERATE then
             let s := set_realcore None s in
             set_drawcore None s
           else
             let s := set_fixture_shape addr_shape s in
             create_core s in
  let s := set_ends_p 0 0 s in
  let s := match trueOrient with
           | FULL => createFixtures_FULL s
           | HALF => createFixtures_HALF s
           | HALF_REVERSE => createFixtures_HALF_REVERSE s
           | DEGENERATE => createFixtures_DEGENERATE s
           end in
  markDirty false s.

(** The fixtures [createFixtures] makes for the geometry and the density an
    obstacle has, newest first. *)
Definition core_fixture (s : CapsuleObstacle) : b2Fixture :=
  {| m_shape := Some (e_polygon (_shape s)); m_density := density (_fixture s) |}.

Definition cap_fixture (s : CapsuleObstacle) (cx cy d : float) : b2Fixture :=
  {| m_shape := Some (e_circle {| m_p := {| x := cx; y := cy |};
                                  m_radius := m_radius (_ends s) |});
     m_density := d |}.

Definition made (s : CapsuleObstacle) : list b2Fixture :=
  let d := density (_fixture s) in
  let c := _center s in
  let wide := fgt (width (_dimension s)) (height (_dimension s)) in
  match trueOrient s with
  | FULL =>
      if wide
      then [cap_fixture s (x (upperBound c)) 0 (d / flt 2);
            cap_fixture s (x (lowerBound c)) 0 (d / flt 2); core_fixture s]
      else [cap_fixture s 0 (y (lowerBound c)) (d / flt 2);
            cap_fixture s 0 (y (upperBound c)) (d / flt 2); core_fixture s]
  | HALF =>
      if wide
      then [cap_fixture s (x (lowerBound c)) 0 (d / flt 2); core_fixture s]
      else [cap_fixture s 0 (y (lowerBound c)) (d / flt 2); core_fixture s]
  | HALF_REVERSE =>
      if wide
      then [cap_fixture s (x (upperBound c)) 0 (d / flt 2); core_fixture s]
      else [cap_fixture s 0 (y (upperBound c)) (d / flt 2); core_fixture s]
  | DEGENERATE => [cap_fixture s 0 0 d]
  end.

(** A body after fixtures were created on it, the last of the list first. *)
Definition add_all (fs : list b2Fixture) (b : b2Body) : b2Body :=
  fold_right (fun f b => snd (CreateFixture f b)) b fs.

(** The pointers [createFixtures] leaves behind, on a body whose next handle
    was [n]. *)
Definition core_handle (s : CapsuleObstacle) (n : handle) : option handle :=
  match trueOrient s with DEGENERATE => None | _ => Some n end.

Definition cap1_handle (s : CapsuleObstacle) (n : handle) : option handle :=
  match trueOrient s with DEGENERATE => Some n | _ => Some (S n) end.

Definition cap2_handle (s : CapsuleObstacle) (n : handle) : option handle :=
  match trueOrient s with FULL => Some (S (S n)) | _ => None end.

(** What [createFixtures] reads: the geometry and the density. *)
Definition geometry (s : CapsuleObstacle) :=
  (_dimension s, _orient s, _seamEpsilon s, _center s, _shape s,
   m_radius (_ends s), density (_fixture s)).

(** A pair of pointers, one into each body. *)
Definition slot : Type := (option handle * option handle)%type.

Definition slots_of (s : CapsuleObstacle) : list slot :=
  [(_realcore s, _drawcore s); (_realcap1 s, _drawcap1 s); (_realcap2 s, _drawcap2 s)].

(** A pair of pointers that are both set singles out the same fixtures in the
    two bodies: a fixture of the one body is behind the first pointer exactly
    when its counterpart in the other body is behind the second. *)
Definition coherent (p : slot) (hr hd : handle) : Prop :=
  match p with
  | (Some a, Some b) => hr = a <-> hd = b
  | _ => True
  end.

Definition paired (sl : list slot) (er ed : handle * b2Fixture) : Prop :=
  snd er = snd ed /\ Forall (fun p => coherent p (fst er) (fst ed)) sl.

(** Every handle in use is below the next one the body will hand out. *)
Definition fresh_ok (b : b2Body) : Prop :=
  Forall (fun e => fst e < m_fresh b)%nat (m_fixtureList b).

Definition sync (sl : list slot) (rb db : b2Body) : Prop :=
  Forall2 (paired sl) (m_fixtureList rb) (m_fixtureList db) /\
  fresh_ok rb /\ fresh_ok db.

(** The invariant of the obstacle: it has both bodies or none, and when it has
    them they are in step. *)
Definition synced (s : CapsuleObstacle) : Prop :=
  match _realbody s, _drawbody s with
  | Some rb, Some db => sync (slots_of s) rb db
  | None, None => True
  | _, _ => False
  end.

(** A pair of pointers made by one and the same step of creation. *)
Definition in_step (n m : handle) (p : slot) : Prop :=
  match p with
  | (Some a, Some b) => exists k, a = (k + n)%nat /\ b = (k + m)%nat
  | _ => True
  end.

(** The obstacle used to exercise the theorems: 4 by 2, [FULL], density 10,
    attached, with its fixtures made. *)
Definition demo_calls : list call :=
  [call_init pos0 (extent 4 2) FULL; call_attach 0 7;
   call_setDensity (flt 10); call_createFixtures].

Definition demo : CapsuleObstacle :=
  createFixtures (setDensity (flt 10) (attach 0 7 (scenario 4 2 FULL))).

(** The handles [releaseFixtures] destroys on each body: those of the pairs
    of pointers that are both set. *)
Definition released_real (s : CapsuleObstacle) : list handle :=
  flat_map (fun p : slot => match p with (Some a, Some _) => [a] | _ => [] end)
           (slots_of s).

Definition released_draw (s : CapsuleObstacle) : list handle :=
  flat_map (fun p : slot => match p with (Some _, Some b) => [b] | _ => [] end)
           (slots_of s).

Definition all_among (hs : list handle) (b : b2Body) : bool :=
  forallb (fun e => existsb (Nat.eqb (fst e)) hs) (m_fixtureList b).

(** The obstacle owns the fixtures of its bodies: each of them is behind one
    of its pairs of pointers. *)
Definition owns (s : CapsuleObstacle) : bool :=
  match _realbody s, _drawbody s with
  | Some rb, Some db => all_among (released_real s) rb && all_among (released_draw s) db
  | _, _ => true
  end.

Definition destroy_all (hs : list handle) (b : b2Body) : b2Body :=
  fold_left (fun b h => DestroyFixture h b) hs b.

(** The fixture set [createFixtures] makes, as the pointers show it: core,
    first cap, second cap. *)
Definition made_set (s : CapsuleObstacle) : list (option b2Fixture) :=
  match trueOrient s, made s with
  | DEGENERATE, [c1] => [None; Some c1; None]
  | FULL, [c2; c1; k] => [Some k; Some c1; Some c2]
  | HALF, [c1; k] | HALF_REVERSE, [c1; k] => [Some k; Some c1; None]
  | _, _ => []
  end.

(** A call made where it belongs: an obstacle is not initialised again
    while fixtures of its are on the bodies. *)
Definition well_used (c : call) (s : CapsuleObstacle) : Prop :=
  match c with
  | call_init _ _ _ => fixtures (_realbody s) = [] /\ fixtures (_drawbody s) = []
  | _ => True
  end.

(** What [createFixtures] leaves in [_fixture.density]: the density halved
    before the caps are made and doubled after, except for [DEGENERATE],
    where it is left alone. *)
Definition density_after (s : CapsuleObstacle) : float :=
  match trueOrient s with
  | DEGENERATE => density (_fixture s)
  | _ => density (_fixture s) / flt 2 * flt 2
  end.

(** The fixtures of a body, newest first, each with its handle and its shape
    and without its density. *)
Definition outline (b : option b2Body) : list (handle * option b2Shape) :=
  match b with
  | Some b => map (fun e => (fst e, m_shape (snd e))) (m_fixtureList b)
  | None => []
  end.

(** How often the mass data of a body was recomputed. *)
Definition massResets (b : option b2Body) : nat :=
  match b with
  | Some b => m_massResets b
  | None => 0
  end.

(** A run in which every call is made where it belongs. *)
Fixpoint well_run (cs : list call) (s : CapsuleObstacle) : Prop :=
  match cs with
  | [] => True
  | c :: cs' =>
      well_used c s /\
      match exec c s with
      | Returned s' => well_run cs' s'
      | AssertionFailed _ => True
      end
  end.

(** ** The input controller

    The data members of [InputController] that [update] and the callbacks
    read or write (GLInputController.cpp). *)

Record InputController : Type := {
  _currDown : bool;  (* whether there is an active press this frame *)
  _prevDown : bool;  (* whether there was one in the frame before *)
  _mouseDown : bool;  (* what the mouse callbacks recorded *)
  _touchDown : bool;  (* what the touch callbacks recorded *)
  _currPos : Vec2;
  _prevPos : Vec2;
  _mousePos : Vec2;
  _touchPos : Vec2
}.

(** What the callbacks read of an event: [event.position] and, of a mouse
    event, [event.buttons.hasLeft()]. *)
Record MouseEvent : Type := { position : Vec2; hasLeft : bool }.
Record TouchEvent : Type := { touch_position : Vec2 }.

(** [InputController::update]; [mouse] tells whether [Input::get<Mouse>()]
    gives a device. *)
Definition update (mouse : bool) (c : InputController) : InputController :=
  let prevDown := _currDown c in
  let prevPos := _currPos c in
  if mouse then
    {| _currDown := _mouseDown c; _prevDown := prevDown;
       _mouseDown := _mouseDown c; _touchDown := _touchDown c;
       _currPos := _mousePos c; _prevPos := prevPos;
       _mousePos := _mousePos c; _touchPos := _touchPos c |}
  else
    {| _currDown := _touchDown c; _prevDown := prevDown;
       _mouseDown := _mouseDown c; _touchDown := _touchDown c;
       _currPos := _touchPos c; _prevPos := prevPos;
       _mousePos := _mousePos c; _touchPos := _touchPos c |}.

(** Assignments to the members the callbacks write. *)
Definition set_mouse (down : bool) (pos : Vec2) (c : InputController) : InputController :=
  {| _currDown := _currDown c; _prevDown := _prevDown c;
     _mouseDown := down; _touchDown := _touchDown c;
     _currPos := _currPos c; _prevPos := _prevPos c;
     _mousePos := pos; _touchPos := _touchPos c |}.

Definition set_touch (down : bool) (pos : Vec2) (c : InputController) : InputController :=
  {| _currDown := _currDown c; _prevDown := _prevDown c;
     _mouseDown := _mouseDown c; _touchDown := down;
     _currPos := _currPos c; _prevPos := _prevPos c;
     _mousePos := _mousePos c; _touchPos := pos |}.

(** [InputController::buttonDownCB] *)
Definition buttonDownCB (event : MouseEvent) (c : InputController) : InputController :=
  if negb (_mouseDown c) && hasLeft event
  then set_mouse true (position event) c
  else c.

(** [InputController::buttonUpCB] *)
Definition buttonUpCB (event : MouseEvent) (c : InputController) : InputController :=
  if _mouseDown c && hasLeft event
  then set_mouse false (_mousePos c) c
  else c.

(** [InputController::motionCB] *)
Definition motionCB (event : MouseEvent) (c : InputController) : InputController :=
  if _mouseDown c then set_mouse (_mouseDown c) (position event) c else c.

(** [InputController::touchDownCB] *)
Definition touchDownCB (event : TouchEvent) (c : InputController) : InputController :=
  if negb (_touchDown c) then set_touch true (touch_position event) c else c.

(** [InputController::touchUpCB] *)
Definition touchUpCB (event : TouchEvent) (c : InputController) : InputController :=
  if _touchDown c then set_touch false (_touchPos c) c else c.

(** [InputController::touchmotionCB] *)
Definition touchmotionCB (event : TouchEvent) (c : InputController) : InputController :=
  if _touchDown c then set_touch (_touchDown c) (touch_position event) c else c.

(** What the devices report between two frames, and the listener
    [InputController::init] registers for each: press, release and drag of
    the mouse; begin, end and motion of a touch. *)
Inductive notice : Type :=
| on_press (event : MouseEvent)
| on_release (event : MouseEvent)
| on_drag (event : MouseEvent)
| on_begin (event : TouchEvent)
| on_end (event : TouchEvent)
| on_motion (event : TouchEvent).

Definition listener (n : notice) (c : InputController) : InputController :=
  match n with
  | on_press event => buttonDownCB event c
  | on_release event => buttonUpCB event c
  | on_drag event => motionCB event c
  | on_begin event => touchDownCB event c
  | on_end event => touchUpCB event c
  | on_motion event => touchmotionCB event c
  end.

(** The callbacks run one after the other, in the order of the reports. *)
Definition deliver (ns : list notice) (c : InputController) : InputController :=
  fold_left (fun c n => listener n c) ns c.

(** One frame: the reports that came in since the last one, then [update]. *)
Definition frame (mouse : bool) (ns : list notice) (c : InputController) : InputController :=
  update mouse (deliver ns c).

Definition from_mouse (n : notice) : bool :=
  match n with
  | on_press _ | on_release _ | on_drag _ => true
  | _ => false
  end.

(** Whether the left button is down after the reports: what the last press or
    release that involved it says. *)
Definition left_after (ns : list notice) (down : bool) : bool :=
  fold_left (fun d n => match n with
                        | on_press event => if hasLeft event then true else d
                        | on_release event => if hasLeft event then false else d
                        | _ => d
                        end) ns down.

(** ** Arithmetic on floats *)

Lemma this_plus (a b : Qc) : (this (a + b) == this a + this b)%Q.
Proof. unfold Qcplus, Q2Qc. cbn [this]. apply Qred_correct. Qed.

Lemma this_minus (a b : Qc) : (this (a - b) == this a - this b)%Q.
Proof.
  unfold Qcminus, Qcopp, Qcplus, Q2Qc. cbn [this].
  rewrite !Qred_correct. reflexivity.
Qed.

Lemma this_opp (a : Qc) : (this (- a) == - this a)%Q.
Proof. unfold Qcopp, Q2Qc. cbn [this]. apply Qred_correct. Qed.

Lemma this_mult (a b : Qc) : (this (a * b) == this a * this b)%Q.
Proof. unfold Qcmult, Q2Qc. cbn [this]. apply Qred_correct. Qed.

Lemma this_half (a : Qc) : (this (a / flt 2) == this a * (1 # 2))%Q.
Proof.
  unfold Qcdiv, Qcmult, Qcinv, flt, Q2Qc. cbn [this].
  rewrite !Qred_correct. reflexivity.
Qed.

Lemma this_flt (q : Q) : (this (flt q) == q)%Q.
Proof. unfold flt, Q2Qc. cbn [this]. apply Qred_correct. Qed.

Lemma this_zero : (this 0 == 0)%Q.
Proof. reflexivity. Qed.

Lemma Qc_eq_Qeq (a b : Qc) : a = b <-> (this a == this b)%Q.
Proof. split; [intros ->; reflexivity | apply Qc_is_canon]. Qed.

Lemma fgt_true (a b : float) : fgt a b = true <-> b < a.
Proof.
  unfold fgt. rewrite Qclt_alt, (Qcgt_alt a b).
  destruct (a ?= b); split; congruence.
Qed.

Lemma fgt_false (a b : float) : fgt a b = false <-> a <= b.
Proof.
  unfold fgt. rewrite Qcle_alt.
  destruct (a ?= b); split; congruence.
Qed.

Lemma feq_true (a b : float) : feq a b = true <-> a = b.
Proof. unfold feq, Qc_eq_bool. destruct (Qc_eq_dec a b); split; congruence. Qed.

Lemma feq_false (a b : float) : feq a b = false <-> a <> b.
Proof. unfold feq, Qc_eq_bool. destruct (Qc_eq_dec a b); split; congruence. Qed.

Lemma feq_refl (a : float) : feq a a = true.
Proof. now apply feq_true. Qed.

(** Statements about floats are moved to [Q], where [lra] decides them. *)
Ltac to_Q :=
  intros;
  repeat match goal with
  | H : @eq Qc _ _ |- _ => apply Qc_eq_Qeq in H
  | H : @eq float _ _ |- _ => apply Qc_eq_Qeq in H
  | H : ~ @eq Qc _ _ |- _ => rewrite Qc_eq_Qeq in H
  | H : ~ @eq float _ _ |- _ => rewrite Qc_eq_Qeq in H
  | |- ~ @eq Qc _ _ => rewrite Qc_eq_Qeq
  | |- ~ @eq float _ _ => rewrite Qc_eq_Qeq
  | |- @eq Qc _ _ => apply Qc_eq_Qeq
  | |- @eq float _ _ => apply Qc_eq_Qeq
  end;
  unfold Qclt, Qcle in *;
  repeat match goal with
  | H : _ |- _ =>
      progress (rewrite ?this_plus, ?this_minus, ?this_opp, ?this_mult,
                        ?this_half, ?this_flt, ?this_zero in H)
  | |- _ =>
      progress (rewrite ?this_plus, ?this_minus, ?this_opp, ?this_mult,
                        ?this_half, ?this_flt, ?this_zero)
  end.

Ltac float_arith := to_Q; lra.

(** A closed equation between floats, by evaluation. *)
Ltac float_eval := apply Qc_is_canon; vm_compute; reflexivity.

Lemma half_twice (d : float) : d / flt 2 * flt 2 = d.
Proof. float_arith. Qed.

Lemma b2Vec2_eqb_eq (a b : b2Vec2) : b2Vec2_eqb a b = true -> a = b.
Proof.
  destruct a, b. unfold b2Vec2_eqb. cbn [x y].
  rewrite andb_true_iff, !feq_true. intros [-> ->]. reflexivity.
Qed.

Lemma vertices_eqb_eq (a b : list b2Vec2) : vertices_eqb a b = true -> a = b.
Proof.
  revert b. induction a as [|v a IH]; intros [|w b]; cbn; try discriminate; trivial.
  rewrite andb_true_iff. intros [Hv Hr].
  apply b2Vec2_eqb_eq in Hv. apply IH in Hr. congruence.
Qed.

Lemma b2Shape_eqb_eq (a b : option b2Shape) : b2Shape_eqb a b = true -> a = b.
Proof.
  destruct a as [[[p]|[c r]]|], b as [[[q]|[d r']]|]; cbn; try discriminate; trivial.
  - intros H. apply vertices_eqb_eq in H. congruence.
  - rewrite andb_true_iff, feq_true. intros [H ->].
    apply b2Vec2_eqb_eq in H. congruence.
Qed.

(** ** The geometry resolver *)

Lemma resize_center (size : Size) (s : CapsuleObstacle) :
  _center (resize size s) = snd (resolve size (_orient s) (_seamEpsilon s)).
Proof. unfold resize. cbn. destruct (_debug s); reflexivity. Qed.

Lemma resize_radius (size : Size) (s : CapsuleObstacle) :
  m_radius (_ends (resize size s)) = fst (resolve size (_orient s) (_seamEpsilon s)).
Proof. unfold resize. cbn. destruct (_debug s); reflexivity. Qed.

(** [resize] writes the extent, the box, the polygon, the radius of the cap,
    the wire frame and the dirty flag, and nothing else. *)
Ltac resize_frame := intros; unfold resize; cbn;
  match goal with |- context [_debug ?s] => destruct (_debug s) end; reflexivity.

Lemma resize_orient size s : _orient (resize size s) = _orient s.
Proof. resize_frame. Qed.
Lemma resize_seamEpsilon size s : _seamEpsilon (resize size s) = _seamEpsilon s.
Proof. resize_frame. Qed.
Lemma resize_dimension size s : _dimension (resize size s) = size.
Proof. resize_frame. Qed.
Lemma resize_fixture size s : _fixture (resize size s) = _fixture s.
Proof. resize_frame. Qed.
Lemma resize_realbody size s : _realbody (resize size s) = _realbody s.
Proof. resize_frame. Qed.
Lemma resize_drawbody size s : _drawbody (resize size s) = _drawbody s.
Proof. resize_frame. Qed.
Lemma resize_realcore size s : _realcore (resize size s) = _realcore s.
Proof. resize_frame. Qed.
Lemma resize_drawcore size s : _drawcore (resize size s) = _drawcore s.
Proof. resize_frame. Qed.
Lemma resize_realcap1 size s : _realcap1 (resize size s) = _realcap1 s.
Proof. resize_frame. Qed.
Lemma resize_drawcap1 size s : _drawcap1 (resize size s) = _drawcap1 s.
Proof. resize_frame. Qed.
Lemma resize_realcap2 size s : _realcap2 (resize size s) = _realcap2 s.
Proof. resize_frame. Qed.
Lemma resize_drawcap2 size s : _drawcap2 (resize size s) = _drawcap2 s.
Proof. resize_frame. Qed.
Lemma resize_shape size s :
  _shape (resize size s) = {| m_vertices := corners (_center (resize size s)) |}.
Proof. resize_frame. Qed.


(** The statements of [DEGENERATE] leave the box at the origin, and the guards
    then open it by the seam offset on every side. *)
Lemma resolve_DEGENERATE (size : Size) (eps : float) :
  resolve size DEGENERATE eps =
  (width size / flt 2,
   {| lowerBound := {| x := 0 - eps; y := 0 - eps |};
      upperBound := {| x := 0 + eps; y := 0 + eps |} |}).
Proof.
  unfold resolve, resize_switch, resize_DEGENERATE, widen_x, widen_y. cbn.
  rewrite !feq_refl. cbn. rewrite ?feq_refl. reflexivity.
Qed.

(** [HALF_REVERSE] runs on into [DEGENERATE]: what its own statements did to
    the radius and to the box is overwritten. *)
Lemma resolve_HALF_REVERSE (size : Size) (eps : float) :
  resolve size HALF_REVERSE eps = resolve size DEGENERATE eps.
Proof.
  unfold resolve, resize_switch, resize_DEGENERATE. reflexivity.
Qed.


(** A guard whose test fails leaves the box as it is. *)
Ltac guard_idle :=
  cbn;
  match goal with
  | |- (if feq ?a ?b then _ else _) = _ =>
      let N := fresh "N" in
      assert (N : feq a b = false) by (apply feq_false; float_arith);
      now rewrite N
  end.



(** ** Scenarios *)

(** C1 (what the code does at the failing input).  An extent of 4 by 2 with
    orientation [HALF_REVERSE] and seam offset 0.01: the radius comes out as
    2, which is half the major axis and not half the minor axis (1), and the
    core rectangle spans 0.02 along the major axis, not 4 less one radius. *)
Theorem resize_HALF_REVERSE_4_2 :
  let s := scenario 4 2 HALF_REVERSE in
  _seamEpsilon s = flt 0.01 /\
  m_radius (_ends s) = flt 2 /\
  height (_dimension s) / flt 2 = flt 1 /\
  x (lowerBound (_center s)) = flt (-0.01) /\
  x (upperBound (_center s)) = flt 0.01 /\
  x (upperBound (_center s)) - x (lowerBound (_center s)) = flt 0.02 /\
  width (_dimension s) - numCapsAttached HALF_REVERSE * (height (_dimension s) / flt 2)
  = flt 3.
Proof. cbv zeta. repeat split; float_eval. Qed.








(** C3 (what the code does at the failing input).  An extent of 4 by 2 with
    orientation [FULL] and seam offset 0.01: the radius is 1 and the core
    rectangle spans x from -1 to 1, but on the y axis its lower bound is 1.01
    and its upper bound is -1.01, not -0.99 and 0.99.  [createFixtures] puts
    two caps of radius 1 at x = -1 and x = 1 on each body. *)
Theorem resize_FULL_4_2 :
  let s := scenario 4 2 FULL in
  _seamEpsilon s = flt 0.01 /\
  m_radius (_ends s) = flt 1 /\
  x (lowerBound (_center s)) = flt (-1) /\
  x (upperBound (_center s)) = flt 1 /\
  y (lowerBound (_center s)) = flt 1.01 /\
  y (upperBound (_center s)) = flt (-1.01) /\
  let s' := createFixtures (attach 0%nat 0%nat s) in
  shape_at (_realbody s') (_realcap1 s') = circle (-1) 0 1 /\
  shape_at (_realbody s') (_realcap2 s') = circle 1 0 1 /\
  shape_at (_drawbody s') (_drawcap1 s') = circle (-1) 0 1 /\
  shape_at (_drawbody s') (_drawcap2 s') = circle 1 0 1.
Proof.
  cbv zeta.
  repeat split; try float_eval; apply b2Shape_eqb_eq; vm_compute; reflexivity.
Qed.

(** ** The mutation hooks *)

(** C7.  [setSeamOffset] with a value that is not positive fails, and it fails
    in the state it was called in: the stored seam offset, like everything
    else, is as before. *)
Theorem setSeamOffset_rejects (value : float) (s : CapsuleObstacle) :
  value <= 0 ->
  setSeamOffset value s = AssertionFailed s.
Proof.
  intros Hv. unfold setSeamOffset, CUAssertLog.
  apply fgt_false in Hv. now rewrite Hv.
Qed.

Lemma setSeamOffset_rejects_witness :
  (0 <= 0 /\
   setSeamOffset 0 (scenario 4 2 FULL) = AssertionFailed (scenario 4 2 FULL)) /\
  (flt (-1) <= 0 /\
   setSeamOffset (flt (-1)) (scenario 4 2 FULL) = AssertionFailed (scenario 4 2 FULL)).
Proof.
  split; split.
  - discriminate.
  - apply (setSeamOffset_rejects 0 (scenario 4 2 FULL)). discriminate.
  - discriminate.
  - apply (setSeamOffset_rejects (flt (-1)) (scenario 4 2 FULL)). discriminate.
Defined.

(** A positive value is stored and the fixtures are marked as out of date;
    the core rectangle, its polygon and the radius stay as they were. *)
Lemma setSeamOffset_accepts (value : float) (s : CapsuleObstacle) :
  0 < value ->
  setSeamOffset value s = Returned (markDirty true (set_seamEpsilon value s)).
Proof.
  intros Hv. unfold setSeamOffset, CUAssertLog.
  apply fgt_true in Hv. now rewrite Hv.
Qed.

(** C8 (what the code does at the failing input).  An obstacle of 4 by 2 with
    orientation [FULL]: [setSeamOffset(0.5)] returns with the new seam offset
    stored and the core rectangle as it was, with the old offset 0.01 in it,
    while [resize] with the stored extent gives the rectangle of the new
    offset. *)
Theorem setSeamOffset_keeps_center :
  let s := scenario 4 2 FULL in
  exists s',
    setSeamOffset (flt 0.5) s = Returned s' /\
    _seamEpsilon s' = flt 0.5 /\
    _center s' = _center s /\
    _shape s' = _shape s /\
    y (lowerBound (_center s')) = flt 1.01 /\
    y (lowerBound (_center (resize (_dimension s') s'))) = flt 1.5 /\
    _center s' <> _center (resize (_dimension s') s').
Proof.
  cbv zeta. eexists. split.
  - apply setSeamOffset_accepts. reflexivity.
  - repeat split; try reflexivity; try float_eval.
    intros E. apply (f_equal (fun c => this (y (lowerBound c)))) in E.
    vm_compute in E. discriminate E.
Qed.

(** [init] returns [true], whatever the obstacle was before. *)
Lemma init_returns_true (pos : Vec2) (size : Size) (shape : Capsule) (s : CapsuleObstacle) :
  fst (init pos size shape s) = true.
Proof. reflexivity. Qed.

(** C9 (what the code does at the failing input).  An obstacle initialised
    with 4 by 2 and [FULL], its seam offset then set to 0.5, is initialised
    again with 2 by 6 and [HALF]: the call returns [true], and orientation,
    seam offset, extent and geometry are those of the second call. *)
Theorem init_twice :
  let s := scenario 4 2 FULL in
  exists s1,
    setSeamOffset (flt 0.5) s = Returned s1 /\
    let r := init pos0 (extent 2 6) HALF s1 in
    fst r = true /\
    _orient s1 = FULL /\ _orient (snd r) = HALF /\
    _seamEpsilon s1 = flt 0.5 /\ _seamEpsilon (snd r) = flt 0.01 /\
    width (_dimension s1) = flt 4 /\ width (_dimension (snd r)) = flt 2 /\
    m_radius (_ends s1) = flt 1 /\ m_radius (_ends (snd r)) = flt 1 /\
    x (upperBound (_center s1)) = flt 1 /\ x (upperBound (_center (snd r))) = flt (-2.01).
Proof.
  cbv zeta. eexists. split.
  - apply setSeamOffset_accepts. reflexivity.
  - repeat split; try reflexivity; float_eval.
Qed.

(** ** The fixture synchroniser *)

(** From here on numbers are compared by the lemmas above, not by unfolding. *)
Opaque Qcplus Qcminus Qcmult Qcdiv Qcopp Qcinv Q2Qc flt fgt feq.

Lemma createFixtures_make (s : CapsuleObstacle) :
  createFixtures s =
  match _realbody s, _drawbody s with
  | Some _, Some _ => make (releaseFixtures s)
  | _, _ => s
  end.
Proof. reflexivity. Qed.

Arguments trueOrient : simpl never.

(** Running the statements of [createFixtures] one after the other. *)
Ltac run_make_with Hr Hd :=
  unfold createFixtures_FULL, createFixtures_HALF, createFixtures_HALF_REVERSE,
    createFixtures_DEGENERATE, create_core, create_cap1, create_cap2, no_cap2,
    real_CreateFixture, draw_CreateFixture;
  repeat (cbn; rewrite ?Hr, ?Hd);
  try (match goal with |- context [fgt ?a ?b] => destruct (fgt a b) end;
       repeat (cbn; rewrite ?Hr, ?Hd)).

Ltac make_cases s Hr Hd :=
  unfold make, made, core_handle, cap1_handle, cap2_handle;
  destruct (trueOrient s); run_make_with Hr Hd.

(** What [make] leaves on an obstacle that has both bodies. *)
Section Attached.

Variables (s : CapsuleObstacle) (rb db : b2Body).
Hypothesis Hr : _realbody s = Some rb.
Hypothesis Hd : _drawbody s = Some db.

Lemma make_realbody : _realbody (make s) = Some (add_all (made s) rb).
Proof. make_cases s Hr Hd; reflexivity. Qed.

Lemma make_drawbody : _drawbody (make s) = Some (add_all (made s) db).
Proof. make_cases s Hr Hd; reflexivity. Qed.

Lemma make_real_slots :
  _realcore (make s) = core_handle s (m_fresh rb) /\
  _realcap1 (make s) = cap1_handle s (m_fresh rb) /\
  _realcap2 (make s) = cap2_handle s (m_fresh rb).
Proof. make_cases s Hr Hd; repeat split; reflexivity. Qed.

Lemma make_draw_slots :
  _drawcore (make s) = core_handle s (m_fresh db) /\
  _drawcap1 (make s) = cap1_handle s (m_fresh db) /\
  _drawcap2 (make s) = cap2_handle s (m_fresh db).
Proof. make_cases s Hr Hd; repeat split; reflexivity. Qed.

End Attached.

Lemma made_geometry (s s' : CapsuleObstacle) :
  geometry s = geometry s' -> made s = made s'.
Proof.
  unfold geometry, made, trueOrient, cap_fixture, core_fixture.
  intros E. injection E as -> -> _ -> -> -> ->. reflexivity.
Qed.

Lemma trueOrient_geometry (s s' : CapsuleObstacle) :
  geometry s = geometry s' -> trueOrient s = trueOrient s'.
Proof.
  unfold geometry, trueOrient.
  intros E. injection E as -> -> _ _ _ _ _. reflexivity.
Qed.

Lemma make_geometry (s : CapsuleObstacle) : geometry (make s) = geometry s.
Proof.
  unfold geometry, make.
  destruct (_realbody s) eqn:Hr, (_drawbody s) eqn:Hd;
    (destruct (trueOrient s); run_make_with Hr Hd;
     rewrite ?half_twice; reflexivity).
Qed.

(** Taking the cases of the bodies and the pointers of a state apart. *)
Ltac slot_cases s :=
  destruct s as [? ? rb db m ? ? ? ? ? ? ? ? c c' a a' b b'];
  destruct rb, db, c, c', a, a', b, b'.

Lemma releaseFixtures_geometry (s : CapsuleObstacle) :
  geometry (releaseFixtures s) = geometry s.
Proof. slot_cases s; reflexivity. Qed.

Lemma setDensity_geometry (value : float) (s : CapsuleObstacle) :
  made (setDensity value s) = made (set_fixture_density value s).
Proof. apply made_geometry. slot_cases s; destruct m; reflexivity. Qed.

(** ** The two bodies stay in step *)

Lemma paired_weaken (sl sl' : list slot) (er ed : handle * b2Fixture) :
  (forall p, In p sl' -> In p sl \/ fst p = None \/ snd p = None) ->
  paired sl er ed -> paired sl' er ed.
Proof.
  intros Hsub [Hs Hc]. split; [exact Hs|].
  rewrite Forall_forall in *. intros p Hp.
  destruct (Hsub p Hp) as [Hin | [Hn | Hn]].
  - now apply Hc.
  - destruct p as [r d]. cbn in Hn. subst r. exact I.
  - destruct p as [[a|] d]; cbn in Hn; subst; exact I.
Qed.

Lemma sync_weaken (sl sl' : list slot) (rb db : b2Body) :
  (forall p, In p sl' -> In p sl \/ fst p = None \/ snd p = None) ->
  sync sl rb db -> sync sl' rb db.
Proof.
  intros Hsub (H2 & Hr & Hd). repeat split; trivial.
  eapply Forall2_impl; [|exact H2].
  intros er ed. now apply paired_weaken.
Qed.

Lemma paired_fixtures (sl : list slot) (lr ld : list (handle * b2Fixture)) :
  Forall2 (paired sl) lr ld -> map snd lr = map snd ld.
Proof.
  induction 1 as [|er ed lr ld [Hs _] _ IH]; cbn; congruence.
Qed.

Lemma sync_fixtures (sl : list slot) (rb db : b2Body) :
  sync sl rb db -> map snd (m_fixtureList rb) = map snd (m_fixtureList db).
Proof. intros (H2 & _). now apply paired_fixtures with sl. Qed.

Lemma paired_test (sl : list slot) (a b : handle) (er ed : handle * b2Fixture) :
  In (Some a, Some b) sl -> paired sl er ed ->
  Nat.eqb (fst er) a = Nat.eqb (fst ed) b.
Proof.
  intros Hin [_ Hc]. rewrite Forall_forall in Hc.
  specialize (Hc _ Hin). cbn in Hc.
  destruct (Nat.eqb_spec (fst er) a) as [E|E], (Nat.eqb_spec (fst ed) b) as [F|F];
    trivial; tauto.
Qed.

Lemma paired_filter (sl : list slot) (a b : handle) (lr ld : list (handle * b2Fixture)) :
  In (Some a, Some b) sl -> Forall2 (paired sl) lr ld ->
  Forall2 (paired sl)
    (filter (fun e => negb (Nat.eqb (fst e) a)) lr)
    (filter (fun e => negb (Nat.eqb (fst e) b)) ld).
Proof.
  intros Hin. induction 1 as [|er ed lr ld Hp _ IH]; cbn; [constructor|].
  rewrite (paired_test sl a b er ed Hin Hp).
  destruct (Nat.eqb (fst ed) b); cbn; [exact IH | now constructor].
Qed.

Lemma paired_map (sl : list slot) (a b : handle) (v : float)
  (lr ld : list (handle * b2Fixture)) :
  In (Some a, Some b) sl -> Forall2 (paired sl) lr ld ->
  Forall2 (paired sl)
    (map (fun e => if Nat.eqb (fst e) a
                   then (fst e, {| m_shape := m_shape (snd e); m_density := v |})
                   else e) lr)
    (map (fun e => if Nat.eqb (fst e) b
                   then (fst e, {| m_shape := m_shape (snd e); m_density := v |})
                   else e) ld).
Proof.
  intros Hin. induction 1 as [|er ed lr ld Hp _ IH]; cbn; [constructor|].
  constructor; [|exact IH].
  rewrite (paired_test sl a b er ed Hin Hp).
  destruct Hp as [Hs Hc].
  destruct (Nat.eqb (fst ed) b); split; cbn; trivial. now rewrite Hs.
Qed.

Lemma DestroyFixture_fresh (h : handle) (b : b2Body) :
  fresh_ok b -> fresh_ok (DestroyFixture h b).
Proof.
  unfold fresh_ok, DestroyFixture. cbn. rewrite !Forall_forall.
  intros H e He. apply filter_In in He. now apply H.
Qed.

Lemma SetDensity_fresh (h : handle) (v : float) (b : b2Body) :
  fresh_ok b -> fresh_ok (SetDensity h v b).
Proof.
  unfold fresh_ok, SetDensity. cbn. intros H.
  rewrite Forall_map. eapply Forall_impl; [|exact H].
  intros e He. now destruct (Nat.eqb (fst e) h).
Qed.

Lemma sync_DestroyFixture (sl : list slot) (a b : handle) (rb db : b2Body) :
  In (Some a, Some b) sl -> sync sl rb db ->
  sync sl (DestroyFixture a rb) (DestroyFixture b db).
Proof.
  intros Hin (H2 & Hr & Hd). repeat split; try now apply DestroyFixture_fresh.
  now apply paired_filter.
Qed.

Lemma sync_SetDensity (sl : list slot) (a b : handle) (v : float) (rb db : b2Body) :
  In (Some a, Some b) sl -> sync sl rb db ->
  sync sl (SetDensity a v rb) (SetDensity b v db).
Proof.
  intros Hin (H2 & Hr & Hd). repeat split; try now apply SetDensity_fresh.
  now apply paired_map.
Qed.

Lemma sync_ResetMassData (sl : list slot) (rb db : b2Body) :
  sync sl rb db -> sync sl (ResetMassData rb) (ResetMassData db).
Proof. intros H. exact H. Qed.

(** New fixtures, created in step on the two bodies. *)
Lemma add_all_fresh (fs : list b2Fixture) (b : b2Body) :
  m_fresh (add_all fs b) = (length fs + m_fresh b)%nat.
Proof.
  unfold add_all. induction fs as [|f fs IH]; cbn; [reflexivity|].
  f_equal. exact IH.
Qed.

Lemma add_all_cons (f : b2Fixture) (fs : list b2Fixture) (b : b2Body) :
  m_fixtureList (add_all (f :: fs) b)
  = ((length fs + m_fresh b)%nat, f) :: m_fixtureList (add_all fs b).
Proof. rewrite <- add_all_fresh. reflexivity. Qed.

Lemma add_all_fixtures (fs : list b2Fixture) (b : b2Body) :
  map snd (m_fixtureList (add_all fs b)) = fs ++ map snd (m_fixtureList b).
Proof.
  induction fs as [|f fs IH]; [reflexivity|].
  rewrite add_all_cons. cbn. now rewrite IH.
Qed.

Lemma add_all_fresh_ok (fs : list b2Fixture) (b : b2Body) :
  fresh_ok b -> fresh_ok (add_all fs b).
Proof.
  intros Hb. induction fs as [|f fs IH]; [exact Hb|].
  unfold fresh_ok in *. rewrite add_all_cons.
  change (m_fresh (add_all (f :: fs) b)) with (S (m_fresh (add_all fs b))).
  constructor.
  - cbn [fst]. rewrite add_all_fresh. lia.
  - eapply Forall_impl; [|exact IH]. intros e He. cbv beta in He. lia.
Qed.

Lemma paired_old (sl : list slot) (n m : handle) (lr ld : list (handle * b2Fixture)) :
  Forall (in_step n m) sl ->
  Forall (fun e => fst e < n)%nat lr -> Forall (fun e => fst e < m)%nat ld ->
  Forall2 (paired []) lr ld -> Forall2 (paired sl) lr ld.
Proof.
  intros Hsl Hr Hd H2. induction H2 as [|er ed lr ld [Hs _] _ IH]; [constructor|].
  inversion Hr; subst. inversion Hd; subst.
  constructor; [|now apply IH].
  split; [exact Hs|].
  eapply Forall_impl; [|exact Hsl].
  intros [[a|] [b|]] Hp; cbn; trivial.
  destruct Hp as (k & -> & ->). lia.
Qed.

Lemma sync_add_all (sl : list slot) (fs : list b2Fixture) (rb db : b2Body) :
  Forall (in_step (m_fresh rb) (m_fresh db)) sl ->
  sync [] rb db -> sync sl (add_all fs rb) (add_all fs db).
Proof.
  intros Hsl (H2 & Hr & Hd). repeat split; try now apply add_all_fresh_ok.
  induction fs as [|f fs IH].
  - now apply paired_old with (m_fresh rb) (m_fresh db).
  - rewrite !add_all_cons. constructor; [|exact IH].
    split; [reflexivity|]. cbn [fst].
    eapply Forall_impl; [|exact Hsl].
    intros [[a|] [b|]] Hp; cbn; trivial.
    destruct Hp as (k & -> & ->). lia.
Qed.

Lemma synced_make (s : CapsuleObstacle) : synced s -> synced (make s).
Proof.
  unfold synced. destruct (_realbody s) as [rb|] eqn:Hr, (_drawbody s) as [db|] eqn:Hd;
    try contradiction.
  - intros H.
    rewrite (make_realbody s rb db Hr Hd), (make_drawbody s rb db Hr Hd).
    unfold slots_of.
    destruct (make_real_slots s rb db Hr Hd) as (-> & -> & ->).
    destruct (make_draw_slots s rb db Hr Hd) as (-> & -> & ->).
    apply sync_add_all.
    + unfold core_handle, cap1_handle, cap2_handle.
      destruct (trueOrient s); repeat constructor; cbn;
        first [ now exists 0%nat | now exists 1%nat | now exists 2%nat ].
    + apply sync_weaken with (slots_of s); [intros p []|exact H].
  - intros _. unfold make.
    destruct (trueOrient s); run_make_with Hr Hd; exact I.
Qed.

Arguments DestroyFixture : simpl never.
Arguments SetDensity : simpl never.
Arguments ResetMassData : simpl never.

(** A state with the same bodies, whose pointers are those of before or
    null, is in step as well. *)
Lemma synced_same (s s' : CapsuleObstacle) :
  _realbody s' = _realbody s -> _drawbody s' = _drawbody s ->
  (forall p, In p (slots_of s') -> In p (slots_of s) \/ fst p = None \/ snd p = None) ->
  synced s -> synced s'.
Proof.
  unfold synced. intros -> -> Hsl.
  destruct (_realbody s), (_drawbody s); trivial.
  now apply sync_weaken.
Qed.

Ltac slots_kept :=
  let p := fresh "p" in
  intros p [<-|[<-|[<-|[]]]]; cbn;
  first [ now left; auto 10 | now right; left | now right; right ].

Lemma synced_releaseFixtures (s : CapsuleObstacle) :
  synced s -> synced (releaseFixtures s).
Proof.
  slot_cases s; cbn; trivial; unfold slots_of; cbn; trivial; intros H;
    match type of H with
    | sync ?l _ _ => apply sync_weaken with (sl := l)
    end;
    try slots_kept;
    repeat (apply sync_DestroyFixture; [cbn; auto 10|]); exact H.
Qed.

Lemma synced_createFixtures (s : CapsuleObstacle) :
  synced s -> synced (createFixtures s).
Proof.
  intros H. rewrite createFixtures_make.
  destruct (_realbody s), (_drawbody s); trivial.
  now apply synced_make, synced_releaseFixtures.
Qed.

Lemma synced_setDensity (value : float) (s : CapsuleObstacle) :
  synced s -> synced (setDensity value s).
Proof.
  slot_cases s; destruct m; cbn; trivial; unfold slots_of; cbn; trivial; intros H;
    repeat first [ apply sync_ResetMassData
                 | apply sync_SetDensity; [cbn; auto 10|] ];
    exact H.
Qed.

Lemma synced_resize (size : Size) (s : CapsuleObstacle) :
  synced s -> synced (resize size s).
Proof.
  apply synced_same.
  - apply resize_realbody.
  - apply resize_drawbody.
  - unfold slots_of.
    rewrite resize_realcore, resize_drawcore, resize_realcap1, resize_drawcap1,
      resize_realcap2, resize_drawcap2.
    intros p Hp. now left.
Qed.

Lemma synced_setShape (value : Capsule) (s : CapsuleObstacle) :
  synced s -> synced (setShape value s).
Proof.
  intros H. unfold setShape.
  destruct (negb (Capsule_eqb value (_orient s))); [|exact H].
  apply synced_resize. exact H.
Qed.

Lemma synced_init (pos : Vec2) (size : Size) (shape : Capsule) (s : CapsuleObstacle) :
  synced s -> synced (snd (init pos size shape s)).
Proof.
  intros H. unfold init. cbn [snd]. apply synced_resize.
  revert H. apply synced_same; try reflexivity. unfold slots_of. cbn.
  intros p [<-|[<-|[<-|[]]]]; right; left; reflexivity.
Qed.

Lemma synced_attach (real draw : handle) (s : CapsuleObstacle) :
  synced (attach real draw s).
Proof.
  unfold synced, attach, sync, fresh_ok. cbn. repeat split; constructor.
Qed.

Lemma synced_setSeamOffset (value : float) (s s' : CapsuleObstacle) :
  synced s -> setSeamOffset value s = Returned s' -> synced s'.
Proof.
  intros H. unfold setSeamOffset, CUAssertLog.
  destruct (fgt value 0); [|discriminate].
  intros E. injection E as <-. exact H.
Qed.

Lemma synced_exec (c : call) (s s' : CapsuleObstacle) :
  synced s -> exec c s = Returned s' -> synced s'.
Proof.
  intros H. destruct c; cbn [exec];
    try (intros E; injection E as <-).
  - now apply synced_init.
  - apply synced_attach.
  - now apply synced_resize.
  - now apply synced_setShape.
  - now apply synced_setDensity.
  - now apply synced_setSeamOffset.
  - now apply synced_createFixtures.
  - now apply synced_releaseFixtures.
Qed.

Lemma synced_run (cs : list call) (s s' : CapsuleObstacle) :
  synced s -> run cs s = Returned s' -> synced s'.
Proof.
  revert s. induction cs as [|c cs IH]; intros s H; cbn [run].
  - intros E. injection E as <-. exact H.
  - destruct (exec c s) as [s1|s1] eqn:E; [|discriminate].
    apply IH. now apply synced_exec with c s.
Qed.

Lemma synced_new : synced CapsuleObstacle_new.
Proof. exact I. Qed.

Lemma synced_mirrored (s : CapsuleObstacle) : synced s -> mirrored s.
Proof.
  unfold synced, mirrored, fixtures.
  destruct (_realbody s), (_drawbody s); try contradiction; trivial.
  apply sync_fixtures.
Qed.

Create HintDb synced.

#[local] Hint Resolve synced_resize synced_setShape synced_setDensity
  synced_createFixtures synced_releaseFixtures : synced.

(** C4.  In every state the obstacle can be brought to by calls of its
    methods, starting from a new obstacle, a call of [resize], of [setShape]
    or of [setDensity] leaves the two bodies with the same fixtures, fixture
    for fixture (the same number, the same shapes, the same densities); and
    so does making the fixtures again after the call. *)
Theorem mirroring (cs : list call) (s : CapsuleObstacle) :
  run cs CapsuleObstacle_new = Returned s ->
  (forall size, mirrored (resize size s) /\ mirrored (createFixtures (resize size s))) /\
  (forall value, mirrored (setShape value s) /\ mirrored (createFixtures (setShape value s))) /\
  (forall value, mirrored (setDensity value s) /\ mirrored (createFixtures (setDensity value s))).
Proof.
  intros Hrun.
  assert (H : synced s)
    by (apply synced_run with cs CapsuleObstacle_new; [exact synced_new | exact Hrun]).
  repeat split; apply synced_mirrored; auto with synced.
Qed.

Lemma mirroring_witness :
  run demo_calls CapsuleObstacle_new = Returned demo /\
  (forall size, mirrored (resize size demo) /\ mirrored (createFixtures (resize size demo))) /\
  (forall value, mirrored (setShape value demo) /\ mirrored (createFixtures (setShape value demo))) /\
  (forall value, mirrored (setDensity value demo) /\ mirrored (createFixtures (setDensity value demo))).
Proof.
  split; [reflexivity|].
  apply (mirroring demo_calls demo). reflexivity.
Defined.

(** ** What is behind the pointers *)

Lemma releaseFixtures_attached (s : CapsuleObstacle) (real draw : b2Body) :
  _realbody s = Some real -> _drawbody s = Some draw ->
  exists rb' db',
    _realbody (releaseFixtures s) = Some rb' /\
    _drawbody (releaseFixtures s) = Some db'.
Proof.
  slot_cases s; cbn; intros Hr Hd; try discriminate; eauto.
Qed.

Lemma lookup_head (h : handle) (f : b2Fixture) (l : list (handle * b2Fixture))
  (n k : nat) :
  lookup h {| m_fixtureList := (h, f) :: l; m_fresh := n; m_massResets := k |} = Some f.
Proof. unfold lookup. cbn. now rewrite Nat.eqb_refl. Qed.

Lemma lookup_SetDensity (h : handle) (v : float) (b : b2Body) :
  lookup h (SetDensity h v b)
  = match lookup h b with
    | Some f => Some {| m_shape := m_shape f; m_density := v |}
    | None => None
    end.
Proof.
  unfold lookup, SetDensity. cbn.
  induction (m_fixtureList b) as [|e l IH]; cbn; [reflexivity|].
  destruct (Nat.eqb (fst e) h) eqn:E; cbn.
  - now rewrite E.
  - rewrite E. exact IH.
Qed.

Lemma lookup_ResetMassData (h : handle) (b : b2Body) :
  lookup h (ResetMassData b) = lookup h b.
Proof. reflexivity. Qed.

(** [setDensity] on an obstacle that has a first cap and nothing else. *)
Lemma setDensity_cap1_only (value : float) (s : CapsuleObstacle)
  (rb db : b2Body) (a b : handle) :
  _realbody s = Some rb -> _drawbody s = Some db ->
  _realcore s = None -> _realcap2 s = None ->
  _realcap1 s = Some a -> _drawcap1 s = Some b ->
  let s' := setDensity value s in
  _realcap1 s' = Some a /\ _drawcap1 s' = Some b /\
  fixture_at (_realbody s') (Some a)
  = fixture_at (Some (SetDensity a (value / flt 2) rb)) (Some a) /\
  fixture_at (_drawbody s') (Some b)
  = fixture_at (Some (SetDensity b (value / flt 2) db)) (Some b).
Proof.
  intros Hr Hd Hc H2 Ha Hb. unfold setDensity, on_realbody, on_drawbody.
  repeat (cbn; rewrite ?Hr, ?Hd, ?Hc, ?H2, ?Ha, ?Hb).
  destruct (_masseffect s); cbn; rewrite ?Hr, ?Hd; cbn;
    repeat split; rewrite ?Ha, ?Hb; reflexivity.
Qed.

(** C10.  When the true orientation is [DEGENERATE], [createFixtures] on an
    attached obstacle creates no core and no second cap and one circle at the
    origin, on each body, with the radius of the cap and the stored density,
    undivided.  A call [setDensity(v)] after that leaves the pointers alone
    and gives that same circle the density [v / 2], on each body; with [v] the
    stored density, the circle goes from [d] to [d / 2]. *)
Theorem DEGENERATE_density (s : CapsuleObstacle) (rb db : b2Body) (v : float) :
  _realbody s = Some rb -> _drawbody s = Some db ->
  trueOrient s = DEGENERATE ->
  let s1 := createFixtures s in
  let c := Some (e_circle {| m_p := {| x := 0; y := 0 |};
                             m_radius := m_radius (_ends s) |}) in
  (_realcore s1 = None /\ _drawcore s1 = None /\
   _realcap2 s1 = None /\ _drawcap2 s1 = None) /\
  (fixture_at (_realbody s1) (_realcap1 s1)
   = Some {| m_shape := c; m_density := density (_fixture s) |} /\
   fixture_at (_drawbody s1) (_drawcap1 s1)
   = Some {| m_shape := c; m_density := density (_fixture s) |}) /\
  let s2 := setDensity v s1 in
  (_realcap1 s2 = _realcap1 s1 /\ _drawcap1 s2 = _drawcap1 s1) /\
  fixture_at (_realbody s2) (_realcap1 s2)
  = Some {| m_shape := c; m_density := v / flt 2 |} /\
  fixture_at (_drawbody s2) (_drawcap1 s2)
  = Some {| m_shape := c; m_density := v / flt 2 |}.
Proof.
  intros Hr Hd Ht. cbv zeta.
  rewrite createFixtures_make, Hr, Hd.
  destruct (releaseFixtures_attached s rb db Hr Hd) as (rb' & db' & Hr' & Hd').
  pose proof (releaseFixtures_geometry s) as G.
  assert (Ht' : trueOrient (releaseFixtures s) = DEGENERATE)
    by now rewrite (trueOrient_geometry _ _ G).
  set (s' := releaseFixtures s) in *.
  assert (Hm : made s' = [cap_fixture s 0 0 (density (_fixture s))]).
  { rewrite (made_geometry _ _ G). unfold made. now rewrite Ht. }
  pose proof (make_realbody s' rb' db' Hr' Hd') as Br.
  pose proof (make_drawbody s' rb' db' Hr' Hd') as Bd.
  destruct (make_real_slots s' rb' db' Hr' Hd') as (Rc & R1 & R2).
  destruct (make_draw_slots s' rb' db' Hr' Hd') as (Dc & D1 & D2).
  unfold core_handle, cap1_handle, cap2_handle in *. rewrite Ht' in *.
  rewrite Hm in Br, Bd.
  assert (Fr : fixture_at (_realbody (make s')) (_realcap1 (make s'))
               = Some (cap_fixture s 0 0 (density (_fixture s))))
    by (rewrite Br, R1; apply lookup_head).
  assert (Fd : fixture_at (_drawbody (make s')) (_drawcap1 (make s'))
               = Some (cap_fixture s 0 0 (density (_fixture s))))
    by (rewrite Bd, D1; apply lookup_head).
  split; [now repeat split|]. split; [now split|].
  destruct (setDensity_cap1_only v (make s') _ _ _ _ Br Bd Rc R2 R1 D1)
    as (S1 & S2 & Sr & Sd).
  rewrite S1, S2, R1, D1. split; [now split|].
  rewrite R1, Br in Fr. rewrite D1, Bd in Fd.
  rewrite Sr, Sd. cbn [fixture_at] in *.
  rewrite !lookup_SetDensity, Fr, Fd. split; reflexivity.
Qed.

Lemma DEGENERATE_density_witness :
  let s := attach 0 7 (setDensity (flt 10) (scenario 2 2 FULL)) in
  exists rb db,
    _realbody s = Some rb /\ _drawbody s = Some db /\
    trueOrient s = DEGENERATE /\
    fixture_at (_realbody (createFixtures s)) (_realcap1 (createFixtures s))
    = Some {| m_shape := Some (e_circle {| m_p := {| x := 0; y := 0 |};
                                           m_radius := m_radius (_ends s) |});
              m_density := density (_fixture s) |} /\
    fixture_at (_realbody (setDensity (density (_fixture s)) (createFixtures s)))
      (_realcap1 (setDensity (density (_fixture s)) (createFixtures s)))
    = Some {| m_shape := Some (e_circle {| m_p := {| x := 0; y := 0 |};
                                           m_radius := m_radius (_ends s) |});
              m_density := density (_fixture s) / flt 2 |}.
Proof.
  cbv zeta. exists (b2Body_new 0), (b2Body_new 7).
  assert (Hr : _realbody (attach 0 7 (setDensity (flt 10) (scenario 2 2 FULL)))
               = Some (b2Body_new 0)) by reflexivity.
  assert (Hd : _drawbody (attach 0 7 (setDensity (flt 10) (scenario 2 2 FULL)))
               = Some (b2Body_new 7)) by reflexivity.
  assert (Ht : trueOrient (attach 0 7 (setDensity (flt 10) (scenario 2 2 FULL)))
               = DEGENERATE) by (vm_compute; reflexivity).
  split; [exact Hr|]. split; [exact Hd|]. split; [exact Ht|].
  pose proof (DEGENERATE_density _ _ _
                (density (_fixture (attach 0 7 (setDensity (flt 10) (scenario 2 2 FULL)))))
                Hr Hd Ht) as H.
  cbv zeta in H. split; [apply H|apply H].
Defined.

(** C5.  An obstacle initialised with the square extent 2 by 2 and the
    orientation [FULL], given any density and attached to two new bodies:
    the orientation asked for stays [FULL], the true orientation is
    [DEGENERATE], and [createFixtures] leaves exactly one fixture on each
    body, a circle of radius 1 at the origin, and no core. *)
Theorem square_FULL_is_DEGENERATE (pos : Vec2) (d : float) (real draw : handle) :
  let s0 := attach real draw
              (setDensity d (snd (init pos (extent 2 2) FULL CapsuleObstacle_new))) in
  let s := createFixtures s0 in
  _orient s0 = FULL /\ trueOrient s0 = DEGENERATE /\
  fixtures (_realbody s) = [ {| m_shape := circle 0 0 1; m_density := d |} ] /\
  fixtures (_drawbody s) = [ {| m_shape := circle 0 0 1; m_density := d |} ] /\
  _realcore s = None /\ _drawcore s = None.
Proof.
  cbv zeta.
  set (s0 := attach real draw
               (setDensity d (snd (init pos (extent 2 2) FULL CapsuleObstacle_new)))).
  assert (Hr : _realbody s0 = Some (b2Body_new real)) by reflexivity.
  assert (Hd : _drawbody s0 = Some (b2Body_new draw)) by reflexivity.
  assert (Ht : trueOrient s0 = DEGENERATE) by (vm_compute; reflexivity).
  assert (Hrad : m_radius (_ends s0) = flt 1) by float_eval.
  assert (Hden : density (_fixture s0) = d) by reflexivity.
  assert (Hrel : releaseFixtures s0 = s0) by reflexivity.
  assert (Hm : made s0 = [ {| m_shape := circle 0 0 1; m_density := d |} ]).
  { unfold made. rewrite Ht. unfold cap_fixture. rewrite Hrad, Hden.
    reflexivity. }
  rewrite createFixtures_make, Hr, Hd, Hrel.
  rewrite (make_realbody s0 _ _ Hr Hd), (make_drawbody s0 _ _ Hr Hd).
  destruct (make_real_slots s0 _ _ Hr Hd) as (-> & _ & _).
  destruct (make_draw_slots s0 _ _ Hr Hd) as (-> & _ & _).
  unfold core_handle, fixtures. rewrite Ht, !add_all_fixtures, Hm.
  repeat split; reflexivity.
Qed.

(** ** Round trip *)

Arguments all_among : simpl never.

Lemma destroy_all_list (hs : list handle) (b : b2Body) :
  m_fixtureList (destroy_all hs b)
  = filter (fun e => negb (existsb (Nat.eqb (fst e)) hs)) (m_fixtureList b).
Proof.
  unfold destroy_all. revert b.
  induction hs as [|h hs IH]; intros b; cbn [fold_left existsb].
  - induction (m_fixtureList b) as [|e l IHl]; cbn; [reflexivity | f_equal; exact IHl].
  - rewrite IH. unfold DestroyFixture. cbn [m_fixtureList].
    induction (m_fixtureList b) as [|e l IHl]; cbn; [reflexivity|].
    destruct (Nat.eqb (fst e) h); cbn; [exact IHl|].
    destruct (existsb (Nat.eqb (fst e)) hs); cbn; [exact IHl | now rewrite IHl].
Qed.

Lemma destroy_owned (hs : list handle) (b : b2Body) :
  all_among hs b = true -> m_fixtureList (destroy_all hs b) = [].
Proof.
  unfold all_among. rewrite destroy_all_list.
  induction (m_fixtureList b) as [|e l IH]; cbn; [reflexivity|].
  rewrite andb_true_iff. intros [-> Hl]. cbn. now apply IH.
Qed.

Lemma all_among_nil (hs : list handle) (b : b2Body) :
  m_fixtureList b = [] -> all_among hs b = true.
Proof. unfold all_among. now intros ->. Qed.

(** After [releaseFixtures] nothing the obstacle owned is left on the bodies. *)
Lemma release_owned (s : CapsuleObstacle) (real draw : b2Body) :
  _realbody s = Some real -> _drawbody s = Some draw -> owns s = true ->
  exists rb' db',
    _realbody (releaseFixtures s) = Some rb' /\ m_fixtureList rb' = [] /\
    _drawbody (releaseFixtures s) = Some db' /\ m_fixtureList db' = [].
Proof.
  unfold owns, released_real, released_draw.
  slot_cases s; cbn; intros Hr Hd; try discriminate;
    rewrite andb_true_iff; intros [Or Od]; do 2 eexists;
    (split; [reflexivity|]); (split; [|split; [reflexivity|]]);
    match goal with
    | H : all_among ?hs ?b0 = true |- m_fixtureList ?t = [] =>
        apply (destroy_owned hs b0 H)
    end.
Qed.

Lemma made_set_geometry (s s' : CapsuleObstacle) :
  geometry s = geometry s' -> made_set s = made_set s'.
Proof.
  intros G. unfold made_set.
  now rewrite (trueOrient_geometry _ _ G), (made_geometry _ _ G).
Qed.

Ltac handles_apart :=
  repeat match goal with
  | |- context [Nat.eqb ?a ?a] => rewrite (Nat.eqb_refl a)
  | |- context [Nat.eqb ?a ?b] =>
      replace (Nat.eqb a b) with false by (symmetry; apply Nat.eqb_neq; lia)
  end.

Lemma real_set_make (s : CapsuleObstacle) (rb db : b2Body) :
  _realbody s = Some rb -> _drawbody s = Some db ->
  real_set (make s) = made_set s.
Proof.
  intros Hr Hd. unfold real_set.
  rewrite (make_realbody s rb db Hr Hd).
  destruct (make_real_slots s rb db Hr Hd) as (-> & -> & ->).
  unfold made_set, made, core_handle, cap1_handle, cap2_handle, fixture_at, lookup.
  destruct (trueOrient s); try destruct (fgt _ _); cbn -[Nat.eqb]; handles_apart; reflexivity.
Qed.

Lemma draw_set_make (s : CapsuleObstacle) (rb db : b2Body) :
  _realbody s = Some rb -> _drawbody s = Some db ->
  draw_set (make s) = made_set s.
Proof.
  intros Hr Hd. unfold draw_set.
  rewrite (make_drawbody s rb db Hr Hd).
  destruct (make_draw_slots s rb db Hr Hd) as (-> & -> & ->).
  unfold made_set, made, core_handle, cap1_handle, cap2_handle, fixture_at, lookup.
  destruct (trueOrient s); try destruct (fgt _ _); cbn -[Nat.eqb]; handles_apart; reflexivity.
Qed.

Lemma all_among_add_all (hs : list handle) (fs : list b2Fixture) (b : b2Body) :
  m_fixtureList b = [] ->
  forallb (fun h => existsb (Nat.eqb h) hs) (map fst (m_fixtureList (add_all fs b))) = true ->
  all_among hs (add_all fs b) = true.
Proof.
  intros _. unfold all_among.
  induction (m_fixtureList (add_all fs b)) as [|e l IH]; cbn; [reflexivity|].
  rewrite !andb_true_iff. intros [-> Hl]. split; [reflexivity | now apply IH].
Qed.

Lemma owns_make (s : CapsuleObstacle) (rb db : b2Body) :
  _realbody s = Some rb -> _drawbody s = Some db ->
  m_fixtureList rb = [] -> m_fixtureList db = [] ->
  owns (make s) = true.
Proof.
  intros Hr Hd Er Ed. unfold owns, released_real, released_draw, slots_of.
  rewrite (make_realbody s rb db Hr Hd), (make_drawbody s rb db Hr Hd).
  destruct (make_real_slots s rb db Hr Hd) as (-> & -> & ->).
  destruct (make_draw_slots s rb db Hr Hd) as (-> & -> & ->).
  apply andb_true_iff; split; apply all_among_add_all; trivial;
    unfold made, core_handle, cap1_handle, cap2_handle;
    destruct (trueOrient s); try destruct (fgt _ _); cbn -[Nat.eqb];
    rewrite ?Er, ?Ed; cbn -[Nat.eqb]; handles_apart; rewrite ?orb_true_r; reflexivity.
Qed.

Lemma make_fixtures (s : CapsuleObstacle) (rb db : b2Body) :
  _realbody s = Some rb -> _drawbody s = Some db ->
  m_fixtureList rb = [] -> m_fixtureList db = [] ->
  fixtures (_realbody (make s)) = made s /\ fixtures (_drawbody (make s)) = made s.
Proof.
  intros Hr Hd Er Ed.
  rewrite (make_realbody s rb db Hr Hd), (make_drawbody s rb db Hr Hd).
  unfold fixtures. rewrite !add_all_fixtures, Er, Ed. cbn. now rewrite app_nil_r.
Qed.

(** [createFixtures] on an attached obstacle releases, and then makes. *)
Lemma createFixtures_attached (s : CapsuleObstacle) (rb db : b2Body) :
  _realbody s = Some rb -> _drawbody s = Some db ->
  exists rb' db',
    _realbody (releaseFixtures s) = Some rb' /\
    _drawbody (releaseFixtures s) = Some db' /\
    createFixtures s = make (releaseFixtures s) /\
    _realbody (createFixtures s) = Some (add_all (made s) rb') /\
    _drawbody (createFixtures s) = Some (add_all (made s) db').
Proof.
  intros Hr Hd.
  destruct (releaseFixtures_attached s rb db Hr Hd) as (rb' & db' & Hr' & Hd').
  exists rb', db'.
  assert (E : createFixtures s = make (releaseFixtures s))
    by (rewrite createFixtures_make, Hr, Hd; reflexivity).
  rewrite E, (make_realbody _ rb' db' Hr' Hd'), (make_drawbody _ rb' db' Hr' Hd').
  now rewrite (made_geometry _ _ (releaseFixtures_geometry s)).
Qed.

Lemma createFixtures_geometry (s : CapsuleObstacle) :
  geometry (createFixtures s) = geometry s.
Proof.
  rewrite createFixtures_make.
  destruct (_realbody s), (_drawbody s); trivial.
  now rewrite make_geometry, releaseFixtures_geometry.
Qed.

(** The fixture set after [createFixtures] is the one the geometry and the
    density call for, whatever was on the bodies before. *)
Lemma createFixtures_sets (s : CapsuleObstacle) (rb db : b2Body) :
  _realbody s = Some rb -> _drawbody s = Some db ->
  real_set (createFixtures s) = made_set s /\
  draw_set (createFixtures s) = made_set s.
Proof.
  intros Hr Hd.
  destruct (createFixtures_attached s rb db Hr Hd) as (rb' & db' & Hr' & Hd' & -> & _).
  rewrite (real_set_make _ rb' db' Hr' Hd'), (draw_set_make _ rb' db' Hr' Hd').
  now rewrite (made_set_geometry _ _ (releaseFixtures_geometry s)).
Qed.


(** ** Ownership is kept *)

Lemma all_among_SetDensity (hs : list handle) (h : handle) (v : float) (b : b2Body) :
  all_among hs (SetDensity h v b) = all_among hs b.
Proof.
  unfold all_among, SetDensity. cbn [m_fixtureList].
  induction (m_fixtureList b) as [|e l IH]; cbn; [reflexivity|].
  rewrite IH. now destruct (Nat.eqb (fst e) h).
Qed.

Lemma all_among_ResetMassData (hs : list handle) (b : b2Body) :
  all_among hs (ResetMassData b) = all_among hs b.
Proof. reflexivity. Qed.

Lemma owns_same (s s' : CapsuleObstacle) :
  _realbody s' = _realbody s -> _drawbody s' = _drawbody s ->
  slots_of s' = slots_of s -> owns s' = owns s.
Proof.
  unfold owns, released_real, released_draw. now intros -> -> ->.
Qed.

Lemma owns_resize (size : Size) (s : CapsuleObstacle) :
  owns (resize size s) = owns s.
Proof.
  apply owns_same.
  - apply resize_realbody.
  - apply resize_drawbody.
  - unfold slots_of.
    now rewrite resize_realcore, resize_drawcore, resize_realcap1, resize_drawcap1,
      resize_realcap2, resize_drawcap2.
Qed.

Lemma owns_setDensity (value : float) (s : CapsuleObstacle) :
  owns (setDensity value s) = owns s.
Proof.
  unfold owns, released_real, released_draw.
  slot_cases s; destruct m; cbn;
    rewrite ?all_among_ResetMassData, ?all_among_SetDensity; reflexivity.
Qed.

Lemma owns_unattached (s : CapsuleObstacle) :
  _realbody s = None \/ _drawbody s = None -> owns (releaseFixtures s) = true.
Proof.
  intros H. slot_cases s; cbn in *; destruct H; try discriminate; reflexivity.
Qed.

Lemma owns_releaseFixtures (s : CapsuleObstacle) :
  owns s = true -> owns (releaseFixtures s) = true.
Proof.
  intros Ho.
  destruct (_realbody s) as [real|] eqn:Hr; [|now apply owns_unattached; left].
  destruct (_drawbody s) as [draw|] eqn:Hd; [|now apply owns_unattached; right].
  destruct (release_owned s real draw Hr Hd Ho) as (rb' & db' & Hr' & Er & Hd' & Ed).
  unfold owns. rewrite Hr', Hd'.
  now rewrite (all_among_nil _ rb' Er), (all_among_nil _ db' Ed).
Qed.

Lemma owns_createFixtures (s : CapsuleObstacle) :
  owns s = true -> owns (createFixtures s) = true.
Proof.
  intros Ho.
  destruct (_realbody s) as [rb|] eqn:Hr, (_drawbody s) as [db|] eqn:Hd;
    try (rewrite createFixtures_make, Hr, ?Hd; exact Ho).
  destruct (release_owned s rb db Hr Hd Ho) as (rb' & db' & Hr' & Er & Hd' & Ed).
  rewrite createFixtures_make, Hr, Hd.
  now apply owns_make with rb' db'.
Qed.

(** Every method keeps the obstacle the owner of what is on its bodies; only
    a second [init], with fixtures on the bodies, forgets them. *)
Lemma owns_exec (c : call) (s s' : CapsuleObstacle) :
  well_used c s -> owns s = true -> exec c s = Returned s' -> owns s' = true.
Proof.
  intros Hc Ho. destruct c; cbn [exec well_used] in *;
    try (intros E; injection E as <-).
  - destruct Hc as [Fr Fd]. unfold init. cbn [snd]. rewrite owns_resize.
    unfold owns, fixtures, all_among in *. cbn.
    destruct (_realbody s), (_drawbody s); trivial.
    apply map_eq_nil in Fr, Fd. now rewrite Fr, Fd.
  - reflexivity.
  - now rewrite owns_resize.
  - unfold setShape. destruct (negb _); [now rewrite owns_resize | exact Ho].
  - now rewrite owns_setDensity.
  - unfold setSeamOffset, CUAssertLog. destruct (fgt value 0); [|discriminate].
    intros E. injection E as <-. exact Ho.
  - now apply owns_createFixtures.
  - now apply owns_releaseFixtures.
Qed.

(** ** What a resize leaves behind *)

Lemma resize_position size s : _position (resize size s) = _position s.
Proof. resize_frame. Qed.
Lemma resize_masseffect size s : _masseffect (resize size s) = _masseffect s.
Proof. resize_frame. Qed.
Lemma resize_dirty size s : _dirty (resize size s) = true.
Proof. reflexivity. Qed.
Lemma resize_ends_p size s : m_p (_ends (resize size s)) = m_p (_ends s).
Proof. resize_frame. Qed.
Lemma resize_debug size s :
  _debug (resize size s)
  = match _debug s with
    | Some _ => Some {| wire_orient := _orient s; wire_size := size;
                        wire_position := _position s |}
    | None => None
    end.
Proof.
  unfold resize, resetDebug. cbn.
  destruct (_debug s) eqn:D; repeat (progress (cbn; rewrite ?D)); reflexivity.
Qed.

(** Two obstacles with the same members are the same. *)
Lemma CapsuleObstacle_ext (s s' : CapsuleObstacle) :
  _position s = _position s' -> _fixture s = _fixture s' ->
  _realbody s = _realbody s' -> _drawbody s = _drawbody s' ->
  _masseffect s = _masseffect s' -> _dirty s = _dirty s' ->
  _debug s = _debug s' -> _dimension s = _dimension s' ->
  _orient s = _orient s' -> _seamEpsilon s = _seamEpsilon s' ->
  _center s = _center s' -> _shape s = _shape s' -> _ends s = _ends s' ->
  _realcore s = _realcore s' -> _drawcore s = _drawcore s' ->
  _realcap1 s = _realcap1 s' -> _drawcap1 s = _drawcap1 s' ->
  _realcap2 s = _realcap2 s' -> _drawcap2 s = _drawcap2 s' ->
  s = s'.
Proof.
  destruct s, s'. cbn. intros. subst. reflexivity.
Qed.

Lemma b2CircleShape_ext (c c' : b2CircleShape) :
  m_p c = m_p c' -> m_radius c = m_radius c' -> c = c'.
Proof. destruct c, c'. cbn. intros. subst. reflexivity. Qed.

(** What [resize] reads of the obstacle, and what it keeps: the result is the
    same from two obstacles that agree on that. *)
Lemma resize_reads (size : Size) (s s' : CapsuleObstacle) :
  _position s = _position s' -> _fixture s = _fixture s' ->
  _realbody s = _realbody s' -> _drawbody s = _drawbody s' ->
  _masseffect s = _masseffect s' ->
  (_debug s = None <-> _debug s' = None) ->
  _orient s = _orient s' -> _seamEpsilon s = _seamEpsilon s' ->
  m_p (_ends s) = m_p (_ends s') ->
  slots_of s = slots_of s' ->
  resize size s = resize size s'.
Proof.
  intros Hp Hf Hr Hd Hm Hg Ho He Hc Hs.
  unfold slots_of in Hs. injection Hs as S1 S2 S3 S4 S5 S6.
  apply CapsuleObstacle_ext;
    rewrite ?resize_position, ?resize_fixture, ?resize_realbody, ?resize_drawbody,
      ?resize_masseffect, ?resize_dirty, ?resize_dimension, ?resize_orient,
      ?resize_seamEpsilon, ?resize_realcore, ?resize_drawcore, ?resize_realcap1,
      ?resize_drawcap1, ?resize_realcap2, ?resize_drawcap2; try assumption;
    try reflexivity.
  - rewrite !resize_debug, Ho, Hp.
    destruct (_debug s), (_debug s'); try reflexivity.
    + destruct Hg as [_ Hg]. now discriminate Hg.
    + destruct Hg as [Hg _]. now discriminate Hg.
  - now rewrite !resize_center, Ho, He.
  - now rewrite !resize_shape, !resize_center, Ho, He.
  - apply b2CircleShape_ext.
    + now rewrite !resize_ends_p.
    + now rewrite !resize_radius, Ho, He.
Qed.

(** X1.  The last [resize] wins: what an earlier one did leaves no trace. *)
Theorem resize_last_wins (size size' : Size) (s : CapsuleObstacle) :
  resize size (resize size' s) = resize size s.
Proof.
  apply resize_reads;
    rewrite ?resize_position, ?resize_fixture, ?resize_realbody, ?resize_drawbody,
      ?resize_masseffect, ?resize_orient, ?resize_seamEpsilon, ?resize_ends_p;
    try reflexivity.
  - rewrite resize_debug. destruct (_debug s); split; congruence.
  - unfold slots_of.
    now rewrite resize_realcore, resize_drawcore, resize_realcap1, resize_drawcap1,
      resize_realcap2, resize_drawcap2.
Qed.

(** X2.  [setShape] and [resize] can be called in either order; [setShape]
    sets the orientation, and a second call with the same value changes
    nothing. *)
Theorem setShape_resize_commute (value : Capsule) (size : Size) (s : CapsuleObstacle) :
  setShape value (resize size s) = resize size (setShape value s) /\
  _orient (setShape value s) = value /\
  setShape value (setShape value s) = setShape value s.
Proof.
  assert (R : forall v, Capsule_eqb v v = true) by (now intros []).
  assert (E : forall v w, Capsule_eqb v w = true -> v = w)
    by (intros [] []; cbn; congruence).
  assert (O : _orient (setShape value s) = value).
  { unfold setShape. destruct (Capsule_eqb value (_orient s)) eqn:C; cbn [negb].
    - symmetry. now apply E.
    - now rewrite resize_orient. }
  split; [|split; [exact O|]].
  - unfold setShape. rewrite resize_orient.
    destruct (Capsule_eqb value (_orient s)); cbn [negb]; [reflexivity|].
    change (_dimension (set_orient value (resize size s))) with (_dimension (resize size s)).
    rewrite resize_dimension.
    transitivity (resize size (set_orient value s)); [|symmetry];
      apply resize_reads; unfold slots_of;
      cbn [set_orient _position _fixture _realbody _drawbody
        _masseffect _debug _orient _seamEpsilon _ends _realcore _drawcore
        _realcap1 _drawcap1 _realcap2 _drawcap2];
      rewrite ?resize_position, ?resize_fixture, ?resize_realbody, ?resize_drawbody,
        ?resize_masseffect, ?resize_orient, ?resize_seamEpsilon, ?resize_ends_p,
        ?resize_realcore, ?resize_drawcore, ?resize_realcap1, ?resize_drawcap1,
        ?resize_realcap2, ?resize_drawcap2;
      try reflexivity;
      rewrite resize_debug; cbn [set_orient _debug];
      destruct (_debug s); split; congruence.
  - unfold setShape at 1. now rewrite O, R.
Qed.

(** X3.  [resize] and [setShape] leave the bodies, their fixtures and the
    pointers alone; [resize] marks the obstacle dirty, [setShape] does when
    the orientation changes. *)
Theorem resize_keeps_fixtures (size : Size) (value : Capsule) (s : CapsuleObstacle) :
  (_realbody (resize size s) = _realbody s /\
   _drawbody (resize size s) = _drawbody s /\
   slots_of (resize size s) = slots_of s /\
   real_set (resize size s) = real_set s /\
   draw_set (resize size s) = draw_set s /\
   _dirty (resize size s) = true) /\
  (_realbody (setShape value s) = _realbody s /\
   _drawbody (setShape value s) = _drawbody s /\
   slots_of (setShape value s) = slots_of s /\
   real_set (setShape value s) = real_set s /\
   draw_set (setShape value s) = draw_set s /\
   _dirty (setShape value s) = if Capsule_eqb value (_orient s) then _dirty s else true).
Proof.
  assert (R : forall sz t,
             _realbody (resize sz t) = _realbody t /\
             _drawbody (resize sz t) = _drawbody t /\
             slots_of (resize sz t) = slots_of t /\
             real_set (resize sz t) = real_set t /\
             draw_set (resize sz t) = draw_set t /\
             _dirty (resize sz t) = true).
  { intros sz t. unfold real_set, draw_set, slots_of.
    rewrite resize_realbody, resize_drawbody, resize_realcore, resize_drawcore,
      resize_realcap1, resize_drawcap1, resize_realcap2, resize_drawcap2.
    repeat split. }
  split; [apply R|].
  unfold setShape. destruct (Capsule_eqb value (_orient s)); cbn [negb].
  - now repeat split.
  - destruct (R (_dimension (set_orient value s)) (set_orient value s))
      as (A & B & C & D & E & F).
    rewrite A, B, C, D, E, F. now repeat split.
Qed.

(** X4.  For [HALF_REVERSE], as for [DEGENERATE], with a positive seam
    offset and for every extent of positive width, whatever the height:
    [resize] leaves the radius at half the width and the core at the square
    that reaches the seam offset from the origin on every side. *)
Theorem resize_HALF_REVERSE_as_DEGENERATE (size : Size) (s : CapsuleObstacle) :
  0 < _seamEpsilon s -> 0 < width size ->
  _orient s = HALF_REVERSE \/ _orient s = DEGENERATE ->
  m_radius (_ends (resize size s)) = width size / flt 2 /\
  _center (resize size s)
  = {| lowerBound := {| x := 0 - _seamEpsilon s; y := 0 - _seamEpsilon s |};
       upperBound := {| x := 0 + _seamEpsilon s; y := 0 + _seamEpsilon s |} |}.
Proof.
  intros _ _ Ho. rewrite resize_radius, resize_center.
  destruct Ho as [E | E]; rewrite E, ?resolve_HALF_REVERSE, resolve_DEGENERATE;
    split; reflexivity.
Qed.

Lemma resize_HALF_REVERSE_as_DEGENERATE_witness :
  0 < _seamEpsilon (scenario 4 2 HALF_REVERSE) /\
  0 < width (extent 3 7) /\
  _orient (scenario 4 2 HALF_REVERSE) = HALF_REVERSE /\
  m_radius (_ends (resize (extent 3 7) (scenario 4 2 HALF_REVERSE)))
  = width (extent 3 7) / flt 2.
Proof.
  assert (He : 0 < _seamEpsilon (scenario 4 2 HALF_REVERSE)) by now vm_compute.
  assert (Hw : 0 < width (extent 3 7)) by now vm_compute.
  split; [exact He|]. split; [exact Hw|]. split; [reflexivity|].
  apply (resize_HALF_REVERSE_as_DEGENERATE (extent 3 7) (scenario 4 2 HALF_REVERSE) He Hw).
  left. reflexivity.
Defined.

(** ** The minor axis of the core *)



(** ** Where the caps are put *)



Lemma geometry_center (s s' : CapsuleObstacle) :
  geometry s = geometry s' -> _center s = _center s'.
Proof. unfold geometry. intros E. now injection E. Qed.

Lemma geometry_fixture_density (s s' : CapsuleObstacle) :
  geometry s = geometry s' -> density (_fixture s) = density (_fixture s').
Proof. unfold geometry. intros E. now injection E. Qed.

Lemma trueOrient_resize (size : Size) (s : CapsuleObstacle) :
  width size <> height size -> trueOrient (resize size s) = _orient s.
Proof.
  intros N. unfold trueOrient. rewrite resize_dimension, resize_orient.
  apply feq_false in N. now rewrite N.
Qed.

(** What the pointers show after [createFixtures] on a resized obstacle. *)
Lemma createFixtures_resize_sets (size : Size) (s : CapsuleObstacle) (rb db : b2Body) :
  _realbody s = Some rb -> _drawbody s = Some db ->
  real_set (createFixtures (resize size s)) = made_set (resize size s) /\
  draw_set (createFixtures (resize size s)) = made_set (resize size s).
Proof.
  intros Hr Hd. apply (createFixtures_sets (resize size s) rb db).
  - now rewrite resize_realbody.
  - now rewrite resize_drawbody.
Qed.

Lemma shape_at_set (s : CapsuleObstacle) (k c1 c2 : option b2Fixture) :
  real_set s = [k; c1; c2] -> draw_set s = [k; c1; c2] ->
  let sh := fun o : option b2Fixture =>
              match o with Some f => m_shape f | None => None end in
  shape_at (_realbody s) (_realcore s) = sh k /\
  shape_at (_realbody s) (_realcap1 s) = sh c1 /\
  shape_at (_realbody s) (_realcap2 s) = sh c2 /\
  shape_at (_drawbody s) (_drawcore s) = sh k /\
  shape_at (_drawbody s) (_drawcap1 s) = sh c1 /\
  shape_at (_drawbody s) (_drawcap2 s) = sh c2.
Proof.
  unfold real_set, draw_set, shape_at. intros R D.
  injection R as -> -> ->. injection D as -> -> ->. now repeat split.
Qed.



(** The core of [HALF] on a proper extent, each bound as the source computes
    it. *)
Lemma resolve_HALF_wide (size : Size) (eps : float) :
  0 < eps -> 0 < height size -> height size < width size ->
  resolve size HALF eps
  = (height size / flt 2,
     {| lowerBound := {| x := - width size / flt 2;
                         y := - (height size - width size) / flt 2 + eps |};
        upperBound := {| x := width size / flt 2 - height size / flt 2;
                         y := (height size - width size) / flt 2 - eps |} |}).
Proof.
  intros He H0 Hw.
  assert (G : fgt (width size) (height size) = true) by now apply fgt_true.
  unfold resolve, resize_switch, resize_HALF, resize_start.
  rewrite G. cbn [fst snd].
  match goal with |- context [widen_x eps ?c] =>
    assert (W : widen_x eps c = c) by (unfold widen_x; guard_idle)
  end.
  rewrite W.
  match goal with |- context [widen_y eps ?c] =>
    assert (V : widen_y eps c = c) by (unfold widen_y; guard_idle)
  end.
  rewrite V. reflexivity.
Qed.

Lemma resolve_HALF_tall (size : Size) (eps : float) :
  0 < eps -> 0 < width size -> width size < height size ->
  resolve size HALF eps
  = (width size / flt 2,
     {| lowerBound := {| x := - (width size - height size) / flt 2 + eps;
                         y := - height size / flt 2 + width size / flt 2 |};
        upperBound := {| x := (width size - height size) / flt 2 - eps;
                         y := height size / flt 2 |} |}).
Proof.
  intros He H0 Hw.
  assert (G : fgt (width size) (height size) = false)
    by (apply fgt_false; to_Q; lra).
  unfold resolve, resize_switch, resize_HALF, resize_start.
  rewrite G. cbn [fst snd].
  match goal with |- context [widen_x eps ?c] =>
    assert (W : widen_x eps c = c) by (unfold widen_x; guard_idle)
  end.
  rewrite W.
  match goal with |- context [widen_y eps ?c] =>
    assert (V : widen_y eps c = c) by (unfold widen_y; guard_idle)
  end.
  rewrite V. reflexivity.
Qed.

(** X7.  The cap of a [HALF] capsule on a proper extent, made after a
    [resize] with a positive seam offset, with the core it sits on.  On a tall
    extent the circle is centred on the lower end of the core, one radius
    above the lower end of the extent.  On a wide extent the circle is centred
    on the left end of the core, which is the left end of the extent itself,
    while the right end of the core is one radius short of the right end of
    the extent. *)
Theorem HALF_cap_position (size : Size) (s : CapsuleObstacle) (rb db : b2Body) :
  _realbody s = Some rb -> _drawbody s = Some db -> _orient s = HALF ->
  0 < _seamEpsilon s ->
  let s1 := createFixtures (resize size s) in
  let cap := fun cx cy r =>
               Some (e_circle {| m_p := {| x := cx; y := cy |}; m_radius := r |}) in
  (0 < height size -> height size < width size ->
   let r := height size / flt 2 in
   shape_at (_realbody s1) (_realcap1 s1) = cap (- width size / flt 2) 0 r /\
   shape_at (_drawbody s1) (_drawcap1 s1) = cap (- width size / flt 2) 0 r /\
   shape_at (_realbody s1) (_realcap2 s1) = None /\
   shape_at (_drawbody s1) (_drawcap2 s1) = None /\
   x (lowerBound (_center s1)) = - width size / flt 2 /\
   x (upperBound (_center s1)) = width size / flt 2 - r) /\
  (0 < width size -> width size < height size ->
   let r := width size / flt 2 in
   shape_at (_realbody s1) (_realcap1 s1) = cap 0 (- height size / flt 2 + r) r /\
   shape_at (_drawbody s1) (_drawcap1 s1) = cap 0 (- height size / flt 2 + r) r /\
   shape_at (_realbody s1) (_realcap2 s1) = None /\
   shape_at (_drawbody s1) (_drawcap2 s1) = None /\
   y (lowerBound (_center s1)) = - height size / flt 2 + r /\
   y (upperBound (_center s1)) = height size / flt 2).
Proof.
  intros Hr Hd Ho He. cbv zeta.
  destruct (createFixtures_resize_sets size s rb db Hr Hd) as [Sr Sd].
  rewrite (geometry_center _ _ (createFixtures_geometry (resize size s))).
  split; intros H0 Hw.
  - assert (T : trueOrient (resize size s) = HALF)
      by (rewrite trueOrient_resize; [exact Ho | to_Q; lra]).
    assert (W : fgt (width (_dimension (resize size s)))
                    (height (_dimension (resize size s))) = true)
      by (rewrite resize_dimension; now apply fgt_true).
    unfold made_set, made in Sr, Sd. rewrite T, W in Sr, Sd.
    destruct (shape_at_set _ _ _ _ Sr Sd) as (_ & A & B & _ & A' & B').
    rewrite A, B, A', B'. cbn [cap_fixture m_shape].
    rewrite resize_radius, resize_center, Ho.
    rewrite (resolve_HALF_wide size (_seamEpsilon s) He H0 Hw).
    now repeat split.
  - assert (T : trueOrient (resize size s) = HALF)
      by (rewrite trueOrient_resize; [exact Ho | to_Q; lra]).
    assert (W : fgt (width (_dimension (resize size s)))
                    (height (_dimension (resize size s))) = false)
      by (rewrite resize_dimension; apply fgt_false; to_Q; lra).
    unfold made_set, made in Sr, Sd. rewrite T, W in Sr, Sd.
    destruct (shape_at_set _ _ _ _ Sr Sd) as (_ & A & B & _ & A' & B').
    rewrite A, B, A', B'. cbn [cap_fixture m_shape].
    rewrite resize_radius, resize_center, Ho.
    rewrite (resolve_HALF_tall size (_seamEpsilon s) He H0 Hw).
    now repeat split.
Qed.

Lemma HALF_cap_position_witness :
  0 < _seamEpsilon (attach 0 7 (scenario 4 2 HALF)) /\
  shape_at (_realbody (createFixtures (resize (extent 6 2) (attach 0 7 (scenario 4 2 HALF)))))
           (_realcap1 (createFixtures (resize (extent 6 2) (attach 0 7 (scenario 4 2 HALF)))))
  = circle (-3) 0 1 /\
  shape_at (_realbody (createFixtures (resize (extent 2 6) (attach 0 7 (scenario 4 2 HALF)))))
           (_realcap1 (createFixtures (resize (extent 2 6) (attach 0 7 (scenario 4 2 HALF)))))
  = circle 0 (-2) 1.
Proof.
  assert (He : 0 < _seamEpsilon (attach 0 7 (scenario 4 2 HALF))) by now vm_compute.
  split; [exact He|]. split.
  - destruct (HALF_cap_position (extent 6 2) (attach 0 7 (scenario 4 2 HALF))
                (b2Body_new 0) (b2Body_new 7) eq_refl eq_refl eq_refl He) as [Wd _].
    destruct Wd as (A & _); [now vm_compute | now vm_compute |].
    rewrite A. apply b2Shape_eqb_eq. now vm_compute.
  - destruct (HALF_cap_position (extent 2 6) (attach 0 7 (scenario 4 2 HALF))
                (b2Body_new 0) (b2Body_new 7) eq_refl eq_refl eq_refl He) as [_ Tl].
    destruct Tl as (A & _); [now vm_compute | now vm_compute |].
    rewrite A. apply b2Shape_eqb_eq. now vm_compute.
Defined.

(** X8.  The fixtures of a [HALF_REVERSE] capsule with a positive seam
    offset, made after a [resize] to an extent of positive sides that is not
    square: the core is the square of the seam offset around the origin, and
    the one cap is a circle of half the width, its centre the seam offset
    away from the origin along the major axis. *)
Theorem HALF_REVERSE_fixtures (size : Size) (s : CapsuleObstacle) (rb db : b2Body) :
  _realbody s = Some rb -> _drawbody s = Some db -> _orient s = HALF_REVERSE ->
  0 < _seamEpsilon s -> 0 < width size -> 0 < height size ->
  width size <> height size ->
  let s1 := createFixtures (resize size s) in
  let lo := 0 - _seamEpsilon s in
  let hi := 0 + _seamEpsilon s in
  let core := Some (e_polygon {| m_vertices :=
                [ {| x := lo; y := lo |}; {| x := lo; y := hi |};
                  {| x := hi; y := hi |}; {| x := hi; y := lo |} ] |}) in
  let cap := if fgt (width size) (height size)
             then Some (e_circle {| m_p := {| x := hi; y := 0 |};
                                    m_radius := width size / flt 2 |})
             else Some (e_circle {| m_p := {| x := 0; y := hi |};
                                    m_radius := width size / flt 2 |}) in
  lo < hi /\
  shape_at (_realbody s1) (_realcore s1) = core /\
  shape_at (_realbody s1) (_realcap1 s1) = cap /\
  shape_at (_realbody s1) (_realcap2 s1) = None /\
  shape_at (_drawbody s1) (_drawcore s1) = core /\
  shape_at (_drawbody s1) (_drawcap1 s1) = cap /\
  shape_at (_drawbody s1) (_drawcap2 s1) = None.
Proof.
  intros Hr Hd Ho He _ _ Hn. cbv zeta.
  split; [float_arith|].
  destruct (createFixtures_resize_sets size s rb db Hr Hd) as [Sr Sd].
  assert (T : trueOrient (resize size s) = HALF_REVERSE)
    by (rewrite trueOrient_resize; [exact Ho | exact Hn]).
  assert (C : _center (resize size s)
              = {| lowerBound := {| x := 0 - _seamEpsilon s; y := 0 - _seamEpsilon s |};
                   upperBound := {| x := 0 + _seamEpsilon s; y := 0 + _seamEpsilon s |} |})
    by (rewrite resize_center, Ho, resolve_HALF_REVERSE, resolve_DEGENERATE; reflexivity).
  assert (R : m_radius (_ends (resize size s)) = width size / flt 2)
    by (rewrite resize_radius, Ho, resolve_HALF_REVERSE, resolve_DEGENERATE; reflexivity).
  unfold made_set, made in Sr, Sd. rewrite T, resize_dimension in Sr, Sd.
  destruct (fgt (width size) (height size));
    destruct (shape_at_set _ _ _ _ Sr Sd) as (A1 & A2 & A3 & A4 & A5 & A6);
    rewrite A1, A2, A3, A4, A5, A6; cbn [cap_fixture core_fixture m_shape];
    rewrite resize_shape, C, R; now repeat split.
Qed.

Lemma HALF_REVERSE_fixtures_witness :
  0 < _seamEpsilon (attach 0 7 (scenario 4 2 HALF_REVERSE)) /\
  shape_at (_realbody (createFixtures (resize (extent 6 2) (attach 0 7 (scenario 4 2 HALF_REVERSE)))))
           (_realcap1 (createFixtures (resize (extent 6 2) (attach 0 7 (scenario 4 2 HALF_REVERSE)))))
  = circle 0.01 0 3.
Proof.
  assert (He : 0 < _seamEpsilon (attach 0 7 (scenario 4 2 HALF_REVERSE))) by now vm_compute.
  split; [exact He|].
  destruct (HALF_REVERSE_fixtures (extent 6 2) (attach 0 7 (scenario 4 2 HALF_REVERSE))
              (b2Body_new 0) (b2Body_new 7) eq_refl eq_refl eq_refl He)
    as (_ & _ & A & _).
  - now vm_compute.
  - now vm_compute.
  - vm_compute. discriminate.
  - rewrite A. apply b2Shape_eqb_eq. now vm_compute.
Defined.

(** ** Density and fixtures *)

Lemma setDensity_attached (value : float) (s : CapsuleObstacle) (real draw : b2Body) :
  _realbody s = Some real -> _drawbody s = Some draw ->
  exists rb' db',
    _realbody (setDensity value s) = Some rb' /\
    _drawbody (setDensity value s) = Some db'.
Proof.
  destruct s as [? ? rb db m ? ? ? ? ? ? ? ? c c' a a' b b']. cbn.
  intros -> ->. destruct c, c', a, a', b, b', m; cbn; eauto.
Qed.

Lemma setDensity_geometry_eq (value : float) (s : CapsuleObstacle) :
  geometry (setDensity value s) = geometry (set_fixture_density value s).
Proof. slot_cases s; destruct m; reflexivity. Qed.

Lemma geometry_density (value : float) (s s' : CapsuleObstacle) :
  geometry s = geometry s' ->
  geometry (set_fixture_density value s) = geometry (set_fixture_density value s').
Proof.
  unfold geometry. cbn. intros E. injection E as -> -> -> -> -> -> _. reflexivity.
Qed.

(** [setDensity] on an obstacle with a core and two caps, and on one with a
    core and one cap. *)
Lemma setDensity_three (value : float) (t : CapsuleObstacle) (rb db : b2Body)
  (k k' p p' q q' : handle) :
  _realbody t = Some rb -> _drawbody t = Some db ->
  _realcore t = Some k -> _drawcore t = Some k' ->
  _realcap1 t = Some p -> _drawcap1 t = Some p' ->
  _realcap2 t = Some q -> _drawcap2 t = Some q' ->
  let R := SetDensity q (value / flt 2) (SetDensity p (value / flt 2) (SetDensity k value rb)) in
  let D := SetDensity q' (value / flt 2) (SetDensity p' (value / flt 2) (SetDensity k' value db)) in
  real_set (setDensity value t) = [lookup k R; lookup p R; lookup q R] /\
  draw_set (setDensity value t) = [lookup k' D; lookup p' D; lookup q' D].
Proof.
  destruct t as [? ? ? ? m ? ? ? ? ? ? ? ? ? ? ? ? ? ?]. cbn.
  intros -> -> -> -> -> -> -> ->. destruct m; split; reflexivity.
Qed.

Lemma setDensity_two (value : float) (t : CapsuleObstacle) (rb db : b2Body)
  (k k' p p' : handle) :
  _realbody t = Some rb -> _drawbody t = Some db ->
  _realcore t = Some k -> _drawcore t = Some k' ->
  _realcap1 t = Some p -> _drawcap1 t = Some p' ->
  _realcap2 t = None -> _drawcap2 t = None ->
  let R := SetDensity p (value / flt 2) (SetDensity k value rb) in
  let D := SetDensity p' (value / flt 2) (SetDensity k' value db) in
  real_set (setDensity value t) = [lookup k R; lookup p R; None] /\
  draw_set (setDensity value t) = [lookup k' D; lookup p' D; None].
Proof.
  destruct t as [? ? ? ? m ? ? ? ? ? ? ? ? ? ? ? ? ? ?]. cbn.
  intros -> -> -> -> -> -> -> ->. destruct m; split; reflexivity.
Qed.

Lemma trueOrient_density (value : float) (s : CapsuleObstacle) :
  trueOrient (set_fixture_density value s) = trueOrient s.
Proof. reflexivity. Qed.

(** Looking up the fixtures just made, after their densities were set. *)
Lemma lookup_after_three (f2 f1 f0 : b2Fixture) (b : b2Body) (v : float) :
  let n := m_fresh b in
  let B := SetDensity (S (S n)) (v / flt 2)
             (SetDensity (S n) (v / flt 2) (SetDensity n v (add_all [f2; f1; f0] b))) in
  [lookup n B; lookup (S n) B; lookup (S (S n)) B]
  = [Some {| m_shape := m_shape f0; m_density := v |};
     Some {| m_shape := m_shape f1; m_density := v / flt 2 |};
     Some {| m_shape := m_shape f2; m_density := v / flt 2 |}].
Proof.
  cbv zeta. unfold lookup, SetDensity, add_all, CreateFixture.
  repeat (progress (cbn -[Nat.eqb]; handles_apart)). reflexivity.
Qed.

Lemma lookup_after_two (f1 f0 : b2Fixture) (b : b2Body) (v : float) :
  let n := m_fresh b in
  let B := SetDensity (S n) (v / flt 2) (SetDensity n v (add_all [f1; f0] b)) in
  [lookup n B; lookup (S n) B; None]
  = [Some {| m_shape := m_shape f0; m_density := v |};
     Some {| m_shape := m_shape f1; m_density := v / flt 2 |};
     None].
Proof.
  cbv zeta. unfold lookup, SetDensity, add_all, CreateFixture.
  repeat (progress (cbn -[Nat.eqb]; handles_apart)). reflexivity.
Qed.

(** The fixture set after [createFixtures] and then [setDensity]. *)
Lemma setDensity_make_sets (value : float) (s : CapsuleObstacle) (rb db : b2Body) :
  _realbody s = Some rb -> _drawbody s = Some db ->
  trueOrient s <> DEGENERATE ->
  real_set (setDensity value (make s)) = made_set (set_fixture_density value s) /\
  draw_set (setDensity value (make s)) = made_set (set_fixture_density value s).
Proof.
  intros Hr Hd Ht.
  pose proof (make_realbody s rb db Hr Hd) as Br.
  pose proof (make_drawbody s rb db Hr Hd) as Bd.
  destruct (make_real_slots s rb db Hr Hd) as (R1 & R2 & R3).
  destruct (make_draw_slots s rb db Hr Hd) as (D1 & D2 & D3).
  unfold made_set. rewrite trueOrient_density.
  unfold core_handle, cap1_handle, cap2_handle in *.
  unfold made in *. rewrite trueOrient_density.
  destruct (trueOrient s) eqn:T; [congruence| | |].
  - destruct (setDensity_two value (make s) _ _ _ _ _ _ Br Bd R1 D1 R2 D2 R3 D3)
      as [-> ->].
    cbn [set_fixture_density _dimension _center _fixture density].
    destruct (fgt _ _); rewrite !lookup_after_two; split; reflexivity.
  - destruct (setDensity_two value (make s) _ _ _ _ _ _ Br Bd R1 D1 R2 D2 R3 D3)
      as [-> ->].
    cbn [set_fixture_density _dimension _center _fixture density].
    destruct (fgt _ _); rewrite !lookup_after_two; split; reflexivity.
  - destruct (setDensity_three value (make s) _ _ _ _ _ _ _ _ Br Bd R1 D1 R2 D2 R3 D3)
      as [-> ->].
    cbn [set_fixture_density _dimension _center _fixture density].
    destruct (fgt _ _); rewrite !lookup_after_three; split; reflexivity.
Qed.

(** The stored density after [make], as the source computes it. *)
Lemma make_geometry_after (s : CapsuleObstacle) :
  geometry (make s) = geometry (set_fixture_density (density_after s) s).
Proof.
  unfold geometry, make, density_after.
  destruct (_realbody s) eqn:Hr, (_drawbody s) eqn:Hd;
    (destruct (trueOrient s); run_make_with Hr Hd; reflexivity).
Qed.


Lemma density_after_geometry (s s' : CapsuleObstacle) :
  geometry s = geometry s' -> density_after s = density_after s'.
Proof.
  intros G. unfold density_after.
  rewrite (trueOrient_geometry _ _ G), (geometry_fixture_density _ _ G). reflexivity.
Qed.

Lemma createFixtures_geometry_after (s : CapsuleObstacle) (rb db : b2Body) :
  _realbody s = Some rb -> _drawbody s = Some db ->
  geometry (createFixtures s) = geometry (set_fixture_density (density_after s) s).
Proof.
  intros Hr Hd. rewrite createFixtures_make, Hr, Hd, make_geometry_after.
  rewrite (density_after_geometry _ _ (releaseFixtures_geometry s)).
  apply geometry_density, releaseFixtures_geometry.
Qed.


(** X9.  On an attached obstacle whose capsule is not degenerate,
    [createFixtures] gives the core the stored density and each cap half of
    it, on each body; the stored density is afterwards the half of it,
    doubled. *)
Theorem createFixtures_density_split (s : CapsuleObstacle) (rb db : b2Body) :
  _realbody s = Some rb -> _drawbody s = Some db ->
  trueOrient s <> DEGENERATE ->
  let s1 := createFixtures s in
  let d := density (_fixture s) in
  let split := [Some d; Some (d / flt 2);
                match trueOrient s with FULL => Some (d / flt 2) | _ => None end] in
  map (option_map m_density) (real_set s1) = split /\
  map (option_map m_density) (draw_set s1) = split /\
  density (_fixture s1) = d / flt 2 * flt 2.
Proof.
  intros Hr Hd Ht. cbv zeta.
  destruct (createFixtures_sets s rb db Hr Hd) as [-> ->].
  split; [|split].
  - unfold made_set, made.
    destruct (trueOrient s); [congruence| | |]; destruct (fgt _ _); reflexivity.
  - unfold made_set, made.
    destruct (trueOrient s); [congruence| | |]; destruct (fgt _ _); reflexivity.
  - rewrite (geometry_fixture_density _ _ (createFixtures_geometry_after s rb db Hr Hd)).
    unfold density_after. cbn [set_fixture_density _fixture density].
    destruct (trueOrient s); [congruence| | |]; reflexivity.
Qed.

Lemma createFixtures_density_split_witness :
  trueOrient demo <> DEGENERATE /\
  map (option_map m_density) (real_set (createFixtures demo))
  = [Some (density (_fixture demo)); Some (density (_fixture demo) / flt 2);
     Some (density (_fixture demo) / flt 2)].
Proof.
  assert (Hr : exists rb, _realbody demo = Some rb)
    by (destruct (_realbody demo) eqn:E; [eauto | vm_compute in E; discriminate E]).
  assert (Hd : exists db, _drawbody demo = Some db)
    by (destruct (_drawbody demo) eqn:E; [eauto | vm_compute in E; discriminate E]).
  destruct Hr as [rb Hr], Hd as [db Hd].
  assert (Ht : trueOrient demo <> DEGENERATE) by (vm_compute; discriminate).
  split; [exact Ht|].
  destruct (createFixtures_density_split demo rb db Hr Hd Ht) as [A _].
  rewrite A.
  assert (T : trueOrient demo = FULL) by (vm_compute; reflexivity).
  now rewrite T.
Defined.

(** X10.  For a capsule that is not degenerate, on an attached obstacle: a
    change of density after the fixtures are made gives the fixture set that
    making them after the change gives.  The stored density is then the new
    value in the first order, and the half of the new value, doubled, in the
    second. *)
Theorem setDensity_createFixtures_commute (value : float) (s : CapsuleObstacle)
  (rb db : b2Body) :
  _realbody s = Some rb -> _drawbody s = Some db ->
  trueOrient s <> DEGENERATE ->
  real_set (setDensity value (createFixtures s))
  = real_set (createFixtures (setDensity value s)) /\
  draw_set (setDensity value (createFixtures s))
  = draw_set (createFixtures (setDensity value s)) /\
  density (_fixture (setDensity value (createFixtures s))) = value /\
  density (_fixture (createFixtures (setDensity value s))) = value / flt 2 * flt 2.
Proof.
  intros Hr Hd Ht.
  destruct (setDensity_attached value s rb db Hr Hd) as (rb2 & db2 & Hr2 & Hd2).
  pose proof (createFixtures_geometry_after _ rb2 db2 Hr2 Hd2) as G2.
  destruct (createFixtures_sets _ rb2 db2 Hr2 Hd2) as [-> ->].
  rewrite (made_set_geometry _ _ (setDensity_geometry_eq value s)).
  destruct (createFixtures_attached s rb db Hr Hd) as (rb1 & db1 & Hr1 & Hd1 & -> & _).
  assert (T : trueOrient (releaseFixtures s) <> DEGENERATE)
    by now rewrite (trueOrient_geometry _ _ (releaseFixtures_geometry s)).
  destruct (setDensity_make_sets value _ rb1 db1 Hr1 Hd1 T) as [-> ->].
  rewrite (made_set_geometry _ _ (geometry_density value _ _ (releaseFixtures_geometry s))).
  repeat split.
  - apply (geometry_fixture_density _ _
             (setDensity_geometry_eq value (make (releaseFixtures s)))).
  - rewrite (geometry_fixture_density _ _ G2).
    cbn [set_fixture_density _fixture density].
    rewrite (density_after_geometry _ _ (setDensity_geometry_eq value s)).
    unfold density_after. rewrite trueOrient_density.
    cbn [set_fixture_density _fixture density].
    destruct (trueOrient s); [congruence| | |]; reflexivity.
Qed.

Lemma setDensity_createFixtures_commute_witness :
  real_set (setDensity (flt 3) (createFixtures (attach 0 7 (scenario 4 2 FULL))))
  = real_set (createFixtures (setDensity (flt 3) (attach 0 7 (scenario 4 2 FULL)))).
Proof.
  apply (setDensity_createFixtures_commute (flt 3) (attach 0 7 (scenario 4 2 FULL))
           (b2Body_new 0) (b2Body_new 7) eq_refl eq_refl).
  vm_compute. discriminate.
Defined.

(** ** Round trip, and what it needs *)




(** ** What a change of density leaves alone *)

Lemma outline_SetDensity (h : handle) (v : float) (b : b2Body) :
  map (fun e => (fst e, m_shape (snd e))) (m_fixtureList (SetDensity h v b))
  = map (fun e => (fst e, m_shape (snd e))) (m_fixtureList b).
Proof.
  unfold SetDensity. cbn [m_fixtureList].
  induction (m_fixtureList b) as [|e l IH]; cbn; [reflexivity|].
  rewrite IH. now destruct (Nat.eqb (fst e) h).
Qed.

Lemma fixtureList_ResetMassData (b : b2Body) :
  m_fixtureList (ResetMassData b) = m_fixtureList b.
Proof. reflexivity. Qed.

Lemma massResets_ResetMassData (b : b2Body) :
  m_massResets (ResetMassData b) = S (m_massResets b).
Proof. reflexivity. Qed.

Lemma massResets_SetDensity (h : handle) (v : float) (b : b2Body) :
  m_massResets (SetDensity h v b) = m_massResets b.
Proof. reflexivity. Qed.

(** X11.  [setDensity] on an attached obstacle creates and destroys no
    fixture and changes no shape and no pointer; it stores the density, and
    has the mass data of each body recomputed once unless the mass was set by
    hand. *)
Theorem setDensity_keeps_outline (value : float) (s : CapsuleObstacle)
  (real draw : b2Body) :
  _realbody s = Some real -> _drawbody s = Some draw ->
  let s' := setDensity value s in
  outline (_realbody s') = outline (_realbody s) /\
  outline (_drawbody s') = outline (_drawbody s) /\
  slots_of s' = slots_of s /\
  density (_fixture s') = value /\
  massResets (_realbody s')
  = (if _masseffect s then massResets (_realbody s) else S (massResets (_realbody s))) /\
  massResets (_drawbody s')
  = (if _masseffect s then massResets (_drawbody s) else S (massResets (_drawbody s))).
Proof.
  cbv zeta.
  destruct s as [? ? rb db m ? ? ? ? ? ? ? ? c c' a a' b b']. cbn.
  intros -> ->. destruct c, c', a, a', b, b', m; cbn;
    rewrite ?fixtureList_ResetMassData, ?massResets_ResetMassData,
      ?outline_SetDensity, ?massResets_SetDensity;
    repeat split; reflexivity.
Qed.

Lemma setDensity_keeps_outline_witness :
  outline (_realbody (setDensity (flt 3) demo)) = outline (_realbody demo) /\
  massResets (_realbody (setDensity (flt 3) demo)) = S (massResets (_realbody demo)).
Proof.
  assert (Hr : exists rb, _realbody demo = Some rb)
    by (destruct (_realbody demo) eqn:E; [eauto | vm_compute in E; discriminate E]).
  assert (Hd : exists db, _drawbody demo = Some db)
    by (destruct (_drawbody demo) eqn:E; [eauto | vm_compute in E; discriminate E]).
  destruct Hr as [rb Hr], Hd as [db Hd].
  destruct (setDensity_keeps_outline (flt 3) demo rb db Hr Hd) as (A & _ & _ & _ & M & _).
  split; [exact A|].
  rewrite M. now vm_compute.
Defined.

(** ** Releasing *)

Lemma releaseFixtures_twice (s : CapsuleObstacle) :
  releaseFixtures (releaseFixtures s) = releaseFixtures s.
Proof. slot_cases s; reflexivity. Qed.

(** X12.  On an attached obstacle, releasing the fixtures a second time
    changes nothing, and neither does releasing them before
    [createFixtures]. *)
Theorem releaseFixtures_idempotent (s : CapsuleObstacle) (rb db : b2Body) :
  _realbody s = Some rb -> _drawbody s = Some db ->
  releaseFixtures (releaseFixtures s) = releaseFixtures s /\
  createFixtures (releaseFixtures s) = createFixtures s.
Proof.
  intros Hr Hd. split; [apply releaseFixtures_twice|].
  destruct (releaseFixtures_attached s rb db Hr Hd) as (rb' & db' & Hr' & Hd').
  rewrite !createFixtures_make, Hr, Hd, Hr', Hd'.
  now rewrite releaseFixtures_twice.
Qed.

Lemma releaseFixtures_idempotent_witness :
  exists rb db,
    _realbody demo = Some rb /\ _drawbody demo = Some db /\
    length (fixtures (_realbody demo)) = 3%nat /\
    length (fixtures (_realbody (releaseFixtures demo))) = 0%nat /\
    releaseFixtures (releaseFixtures demo) = releaseFixtures demo /\
    createFixtures (releaseFixtures demo) = createFixtures demo.
Proof.
  assert (Hr : exists rb, _realbody demo = Some rb)
    by (destruct (_realbody demo) eqn:E; [eauto | vm_compute in E; discriminate E]).
  assert (Hd : exists db, _drawbody demo = Some db)
    by (destruct (_drawbody demo) eqn:E; [eauto | vm_compute in E; discriminate E]).
  destruct Hr as [rb Hr], Hd as [db Hd].
  exists rb, db. split; [exact Hr|]. split; [exact Hd|].
  split; [now vm_compute|]. split; [now vm_compute|].
  exact (releaseFixtures_idempotent demo rb db Hr Hd).
Defined.

(** X13.  On an attached obstacle that owns the fixtures of its bodies,
    [releaseFixtures] leaves no fixture on either body and no pointer set. *)
Theorem releaseFixtures_leaves_nothing (s : CapsuleObstacle) (real draw : b2Body) :
  _realbody s = Some real -> _drawbody s = Some draw -> owns s = true ->
  fixtures (_realbody (releaseFixtures s)) = [] /\
  fixtures (_drawbody (releaseFixtures s)) = [] /\
  real_set (releaseFixtures s) = [None; None; None] /\
  draw_set (releaseFixtures s) = [None; None; None].
Proof.
  intros Hr Hd Ho.
  destruct (release_owned s real draw Hr Hd Ho) as (rb' & db' & Hr' & Er & Hd' & Ed).
  unfold real_set, draw_set, fixtures, fixture_at, lookup.
  rewrite Hr', Hd', Er, Ed. cbn.
  repeat split; try reflexivity;
    destruct (_realcore (releaseFixtures s)), (_realcap1 (releaseFixtures s)),
      (_realcap2 (releaseFixtures s)), (_drawcore (releaseFixtures s)),
      (_drawcap1 (releaseFixtures s)), (_drawcap2 (releaseFixtures s)); reflexivity.
Qed.

Lemma releaseFixtures_leaves_nothing_witness :
  exists real draw,
    _realbody demo = Some real /\ _drawbody demo = Some draw /\ owns demo = true /\
    fixtures (_realbody demo) <> [] /\
    fixtures (_realbody (releaseFixtures demo)) = [] /\
    fixtures (_drawbody (releaseFixtures demo)) = [].
Proof.
  assert (Hr : exists rb, _realbody demo = Some rb)
    by (destruct (_realbody demo) eqn:E; [eauto | vm_compute in E; discriminate E]).
  assert (Hd : exists db, _drawbody demo = Some db)
    by (destruct (_drawbody demo) eqn:E; [eauto | vm_compute in E; discriminate E]).
  destruct Hr as [rb Hr], Hd as [db Hd].
  assert (Ho : owns demo = true) by (vm_compute; reflexivity).
  exists rb, db. split; [exact Hr|]. split; [exact Hd|]. split; [exact Ho|].
  split.
  - intros E. apply (f_equal (@length _)) in E. vm_compute in E. discriminate E.
  - destruct (releaseFixtures_leaves_nothing demo rb db Hr Hd Ho) as (A & B & _).
    split; assumption.
Defined.

(** ** Initialising an obstacle that has fixtures *)

Lemma init_frame (pos : Vec2) (size : Size) (shape : Capsule) (s : CapsuleObstacle) :
  let s' := snd (init pos size shape s) in
  _realbody s' = _realbody s /\ _drawbody s' = _drawbody s /\
  _realcore s' = None /\ _realcap1 s' = None /\ _realcap2 s' = None /\
  _drawcore s' = _drawcore s /\ _drawcap1 s' = _drawcap1 s /\
  _drawcap2 s' = _drawcap2 s.
Proof.
  cbv zeta. unfold init. cbn [snd].
  rewrite resize_realbody, resize_drawbody, resize_realcore, resize_realcap1,
    resize_realcap2, resize_drawcore, resize_drawcap1, resize_drawcap2.
  now repeat split.
Qed.

Lemma releaseFixtures_no_real (s : CapsuleObstacle) :
  _realcore s = None -> _realcap1 s = None -> _realcap2 s = None ->
  releaseFixtures s = s.
Proof.
  slot_cases s; cbn; intros H1 H2 H3; try discriminate; reflexivity.
Qed.

(** X14.  [init] on an attached obstacle forgets the fixtures made before
    without destroying them: [releaseFixtures] right after it changes
    nothing, and [createFixtures] puts the new fixtures on each body on top
    of the ones that were there. *)
Theorem init_orphans_fixtures (pos : Vec2) (size : Size) (shape : Capsule)
  (s : CapsuleObstacle) (rb db : b2Body) :
  _realbody s = Some rb -> _drawbody s = Some db ->
  let s' := snd (init pos size shape s) in
  releaseFixtures s' = s' /\
  fixtures (_realbody (createFixtures s')) = made s' ++ fixtures (_realbody s) /\
  fixtures (_drawbody (createFixtures s')) = made s' ++ fixtures (_drawbody s).
Proof.
  intros Hr Hd. cbv zeta.
  destruct (init_frame pos size shape s) as (Br & Bd & R1 & R2 & R3 & _).
  pose proof (releaseFixtures_no_real _ R1 R2 R3) as Rel.
  split; [exact Rel|].
  rewrite Hr in Br. rewrite Hd in Bd.
  rewrite createFixtures_make, Br, Bd, Rel.
  rewrite (make_realbody _ rb db Br Bd), (make_drawbody _ rb db Br Bd).
  unfold fixtures. rewrite !add_all_fixtures, Hr, Hd. now split.
Qed.

Lemma init_orphans_fixtures_witness :
  length (fixtures (_realbody demo)) = 3%nat /\
  length (fixtures (_realbody (createFixtures (snd (init pos0 (extent 2 6) HALF demo)))))
  = 5%nat.
Proof.
  assert (Hr : exists rb, _realbody demo = Some rb)
    by (destruct (_realbody demo) eqn:E; [eauto | vm_compute in E; discriminate E]).
  assert (Hd : exists db, _drawbody demo = Some db)
    by (destruct (_drawbody demo) eqn:E; [eauto | vm_compute in E; discriminate E]).
  destruct Hr as [rb Hr], Hd as [db Hd].
  split; [now vm_compute|].
  destruct (init_orphans_fixtures pos0 (extent 2 6) HALF demo rb db Hr Hd) as (_ & A & _).
  rewrite A, length_app. now vm_compute.
Defined.

(** ** The seam offset *)

(** X15.  A seam offset that is accepted is stored and marks the obstacle
    dirty, and nothing else changes: fixtures made after it are the ones
    that would have been made before it.  The new offset shows in the core
    only after the next [resize]. *)
Theorem setSeamOffset_needs_resize (value : float) (s : CapsuleObstacle)
  (rb db : b2Body) :
  0 < value -> _realbody s = Some rb -> _drawbody s = Some db ->
  exists s',
    setSeamOffset value s = Returned s' /\
    _seamEpsilon s' = value /\ _dirty s' = true /\
    _center s' = _center s /\ _shape s' = _shape s /\ _ends s' = _ends s /\
    real_set (createFixtures s') = real_set (createFixtures s) /\
    draw_set (createFixtures s') = draw_set (createFixtures s) /\
    (forall size, _center (resize size s') = snd (resolve size (_orient s) value)).
Proof.
  intros Hv Hr Hd. eexists. split; [now apply setSeamOffset_accepts|].
  set (s' := markDirty true (set_seamEpsilon value s)).
  assert (M : made_set s' = made_set s) by reflexivity.
  destruct (createFixtures_sets s' rb db Hr Hd) as [-> ->].
  destruct (createFixtures_sets s rb db Hr Hd) as [-> ->].
  repeat split; try assumption. intros size. now rewrite resize_center.
Qed.

Lemma setSeamOffset_needs_resize_witness :
  exists s',
    setSeamOffset (flt 0.5) (attach 0 7 (scenario 4 2 FULL)) = Returned s' /\
    real_set (createFixtures s')
    = real_set (createFixtures (attach 0 7 (scenario 4 2 FULL))).
Proof.
  destruct (setSeamOffset_needs_resize (flt 0.5) (attach 0 7 (scenario 4 2 FULL))
              (b2Body_new 0) (b2Body_new 7)) as (s' & A & _ & _ & _ & _ & _ & B & _).
  - now vm_compute.
  - reflexivity.
  - reflexivity.
  - exists s'. split; assumption.
Defined.

(** ** No fixture is left behind *)

Lemma owns_run (cs : list call) (s s' : CapsuleObstacle) :
  well_run cs s -> owns s = true -> run cs s = Returned s' -> owns s' = true.
Proof.
  revert s. induction cs as [|c cs IH]; intros s Hw Ho; cbn [run well_run] in *.
  - intros E. injection E as <-. exact Ho.
  - destruct Hw as [Hc Hw]. destruct (exec c s) as [t|t] eqn:E; [|discriminate].
    apply IH; [exact Hw|]. now apply (owns_exec c s t).
Qed.

(** X16.  After any run of calls from a new obstacle in which [init] is not
    called while fixtures are on the bodies, the obstacle owns what is on its
    bodies, and [createFixtures] leaves on each body the fixtures it makes for
    the geometry and the density at hand, one to three, and no other. *)
Theorem createFixtures_never_piles_up (cs : list call) (s : CapsuleObstacle)
  (rb db : b2Body) :
  well_run cs CapsuleObstacle_new ->
  run cs CapsuleObstacle_new = Returned s ->
  _realbody s = Some rb -> _drawbody s = Some db ->
  owns s = true /\
  fixtures (_realbody (createFixtures s)) = made s /\
  fixtures (_drawbody (createFixtures s)) = made s /\
  (1 <= length (made s) <= 3)%nat.
Proof.
  intros Hw Hrun Hr Hd.
  assert (Ho : owns s = true) by (apply (owns_run cs CapsuleObstacle_new s Hw); trivial).
  split; [exact Ho|].
  destruct (createFixtures_attached s rb db Hr Hd) as (rb1 & db1 & Hr1 & Hd1 & E1 & _).
  destruct (release_owned s rb db Hr Hd Ho) as (rb1' & db1' & Hr1' & Er1 & Hd1' & Ed1).
  rewrite Hr1 in Hr1'. rewrite Hd1 in Hd1'.
  injection Hr1' as <-. injection Hd1' as <-.
  destruct (make_fixtures _ rb1 db1 Hr1 Hd1 Er1 Ed1) as [Fr Fd].
  rewrite <- E1 in Fr, Fd.
  rewrite (made_geometry _ _ (releaseFixtures_geometry s)) in Fr, Fd.
  split; [exact Fr|]. split; [exact Fd|].
  unfold made. destruct (trueOrient s); try destruct (fgt _ _); cbn; lia.
Qed.

Lemma createFixtures_never_piles_up_witness :
  exists rb db,
    well_run demo_calls CapsuleObstacle_new /\
    run demo_calls CapsuleObstacle_new = Returned demo /\
    _realbody demo = Some rb /\ _drawbody demo = Some db /\
    fixtures (_realbody (createFixtures demo)) = made demo.
Proof.
  assert (Hr : exists rb, _realbody demo = Some rb)
    by (destruct (_realbody demo) eqn:E; [eauto | vm_compute in E; discriminate E]).
  assert (Hd : exists db, _drawbody demo = Some db)
    by (destruct (_drawbody demo) eqn:E; [eauto | vm_compute in E; discriminate E]).
  destruct Hr as [rb Hr], Hd as [db Hd].
  assert (Hw : well_run demo_calls CapsuleObstacle_new) by (cbn; repeat split).
  assert (Hrun : run demo_calls CapsuleObstacle_new = Returned demo) by reflexivity.
  exists rb, db. repeat (split; [assumption|]).
  now destruct (createFixtures_never_piles_up demo_calls demo rb db Hw Hrun Hr Hd)
    as (_ & A & _).
Defined.

(** ** The input controller *)

Lemma listener_mouse_touch (n : notice) (c : InputController) :
  (from_mouse n = true ->
   _touchDown (listener n c) = _touchDown c /\ _touchPos (listener n c) = _touchPos c) /\
  (from_mouse n = false ->
   _mouseDown (listener n c) = _mouseDown c /\ _mousePos (listener n c) = _mousePos c) /\
  _currDown (listener n c) = _currDown c /\ _currPos (listener n c) = _currPos c /\
  _prevDown (listener n c) = _prevDown c /\ _prevPos (listener n c) = _prevPos c.
Proof.
  destruct c as [cd pd md td cp pp mp tp].
  destruct n as [[p l]|[p l]|[p l]|e|e|e], md, td; try destruct l; cbn;
    repeat split; intros; try discriminate; repeat split.
Qed.

(** X17.  The mouse callbacks keep the flag of the left button in step with the
    last press or release that involved it, whatever else is reported. *)
Theorem mouseDown_follows_left (ns : list notice) (c : InputController) :
  _mouseDown (deliver ns c) = left_after ns (_mouseDown c).
Proof.
  unfold deliver, left_after. revert c.
  induction ns as [|n ns IH]; intros c; cbn [fold_left]; [reflexivity|].
  rewrite IH. f_equal.
  destruct c as [cd pd md td cp pp mp tp].
  destruct n as [[p l]|[p l]|[p l]|e|e|e], md, td; try destruct l; reflexivity.
Qed.

(** What the callbacks of one device do depends only on what that device
    recorded before, and the callbacks of the other device leave it alone. *)
Lemma deliver_own_device (mouse : bool) (ns : list notice) (c c' : InputController) :
  (if mouse
   then _mouseDown c = _mouseDown c' /\ _mousePos c = _mousePos c'
   else _touchDown c = _touchDown c' /\ _touchPos c = _touchPos c') ->
  let d := deliver ns c in
  let d' := deliver (filter (fun n => Bool.eqb (from_mouse n) mouse) ns) c' in
  if mouse
  then _mouseDown d = _mouseDown d' /\ _mousePos d = _mousePos d'
  else _touchDown d = _touchDown d' /\ _touchPos d = _touchPos d'.
Proof.
  cbv zeta. unfold deliver. revert c c'.
  induction ns as [|n ns IH]; intros c c' H; cbn [filter fold_left]; [exact H|].
  destruct c as [cd pd md td cp pp mp tp], c' as [cd' pd' md' td' cp' pp' mp' tp'].
  destruct mouse; cbn in H; destruct H as [H1 H2]; subst;
    destruct n as [[p l]|[p l]|[p l]|e|e|e]; cbn [from_mouse Bool.eqb fold_left];
    apply IH; cbn;
    try destruct md; try destruct md'; try destruct td; try destruct td';
    try destruct l; cbn; split; reflexivity.
Qed.

Lemma deliver_current (ns : list notice) (c : InputController) :
  _currDown (deliver ns c) = _currDown c /\ _currPos (deliver ns c) = _currPos c.
Proof.
  unfold deliver. revert c.
  induction ns as [|n ns IH]; intros c; cbn [fold_left]; [now split|].
  destruct (IH (listener n c)) as [-> ->].
  destruct (listener_mouse_touch n c) as (_ & _ & -> & -> & _). now split.
Qed.

(** X18.  Where there is a mouse, what [update] shows of a frame does not
    depend on what the touch screen reported in it: the frame shows what it
    would show had the reports of the touch screen not come in, whatever the
    order in which they were mixed with those of the mouse.  Where there is no
    mouse, the same holds with the two devices exchanged. *)
Theorem update_one_device (mouse : bool) (ns : list notice) (c : InputController) :
  let own := filter (fun n => Bool.eqb (from_mouse n) mouse) ns in
  _currDown (frame mouse ns c) = _currDown (frame mouse own c) /\
  _currPos (frame mouse ns c) = _currPos (frame mouse own c) /\
  _prevDown (frame mouse ns c) = _prevDown (frame mouse own c) /\
  _prevPos (frame mouse ns c) = _prevPos (frame mouse own c).
Proof.
  cbv zeta. unfold frame.
  pose proof (deliver_own_device mouse ns c c) as D. cbv zeta in D.
  destruct (deliver_current ns c) as [K1 K2].
  destruct (deliver_current (filter (fun n => Bool.eqb (from_mouse n) mouse) ns) c)
    as [K3 K4].
  unfold update. destruct mouse; cbn;
    (destruct D as [D1 D2]; [now split|]);
    rewrite D1, D2, K1, K2, K3, K4; now repeat split.
Qed.

(** X19.  A press and a release of the left button that come in between two
    calls of [update] are never shown as a press: the button is up in both
    frames, while the position is the one of the press. *)
Theorem click_within_frame_unseen (down up : MouseEvent)
  (ns : list notice) (c : InputController) :
  _mouseDown (deliver ns c) = false ->
  hasLeft down = true -> hasLeft up = true ->
  let c1 := frame true ns c in
  let c2 := frame true [on_press down; on_release up] c1 in
  _currDown c1 = false /\
  _currDown c2 = false /\ _prevDown c2 = false /\
  _currPos c2 = position down.
Proof.
  intros Hm Hd Hu. cbv zeta. unfold frame.
  destruct (deliver ns c) as [cd pd md td cp pp mp tp].
  destruct down as [p l], up as [p' l']. cbn in Hm, Hd, Hu. subst md l l'.
  now repeat split.
Qed.

Lemma click_within_frame_unseen_witness :
  let c := {| _currDown := false; _prevDown := false; _mouseDown := false;
              _touchDown := false; _currPos := pos0; _prevPos := pos0;
              _mousePos := pos0; _touchPos := pos0 |} in
  let at_1_2 := {| position := {| vx := flt 1; vy := flt 2 |}; hasLeft := true |} in
  _mouseDown (listener (on_press at_1_2) (frame true [] c)) = true /\
  _currDown (frame true [on_press at_1_2; on_release at_1_2] (frame true [] c)) = false.
Proof.
  cbv zeta. split; [reflexivity|].
  apply (click_within_frame_unseen
           {| position := {| vx := flt 1; vy := flt 2 |}; hasLeft := true |}
           {| position := {| vx := flt 1; vy := flt 2 |}; hasLeft := true |}
           []
           {| _currDown := false; _prevDown := false; _mouseDown := false;
              _touchDown := false; _currPos := pos0; _prevPos := pos0;
              _mousePos := pos0; _touchPos := pos0 |}
           eq_refl eq_refl eq_refl).
Defined.

(** X20.  What a frame shows as the previous state is what the frame before
    showed as the current one, whatever was reported in between: the
    callbacks write neither. *)
Theorem previous_is_last_current (mouse : bool) (ns : list notice) (c : InputController) :
  _prevDown (frame mouse ns c) = _currDown c /\
  _prevPos (frame mouse ns c) = _currPos c.
Proof.
  assert (K : _currDown (deliver ns c) = _currDown c /\
              _currPos (deliver ns c) = _currPos c).
  { unfold deliver. revert c.
    induction ns as [|n ns IH]; intros c; cbn [fold_left]; [now split|].
    destruct (IH (listener n c)) as [-> ->].
    destruct (listener_mouse_touch n c) as (_ & _ & -> & -> & _). now split. }
  destruct K as [K1 K2]. unfold frame, update.
  destruct mouse; cbn; now rewrite K1, K2.
Qed.
